(** * Book template editor: format catalog, specification rules, format
      resolution and guide geometry

    A shallow embedding of [src/lib/types.ts], of the format handlers of
    [src/components/Controls/Controls.tsx] and of the guide drawing of
    [src/components/Canvas/CanvasEditor.tsx].

    Numbers.  A JavaScript [number] is an IEEE 754 binary64 value; it is
    modelled by Rocq's primitive [float], whose operations are the binary64
    ones (round to nearest, ties to even), and a decimal literal of the
    source is the same decimal literal here, read the same way.  A page
    count is the result of [parseInt]: it is integer valued, and is
    modelled by the integer it denotes ([Z]); comparing it with an integer
    literal is then the comparison of integers, and where the source does
    arithmetic on it, it is converted to its binary64 value [number_of_Z].

    The same rules read on binary64 page counts
    ([getGutterWidth_number], [calculateHardcoverSpineWidth_number]) are
    given beside the integer ones, and shown to agree with them.

    Objects.  [BOOK_FORMATS] is a JavaScript object used as a table from
    strings to formats: its own properties are a [gmap string BookFormat],
    and a lookup that misses them falls through to [Object.prototype].

    State.  The handlers of the controls are functions from the state of
    the render they run in to the queued state, the calls made to the
    parent's callbacks, and the exception raised, if any. *)

From Stdlib Require Import ZArith QArith Qabs Floats Lia.
From stdpp Require Import base option list strings gmap.
From stdpp Require Import pretty.

Set Warnings "-inexact-float".

Local Open Scope Z_scope.

(** The binary64 value of an integer (the nearest one, ties to even; an
    integer of magnitude at most 2^53 is represented exactly). *)
Definition number_of_Z (z : Z) : float :=
  SF2Prim (binary_normalize prec emax z 0 false).

(** ** [src/lib/types.ts] *)

Module types.

Record Dimensions : Type := mkDimensions {
  width : float;
  height : float
}.

Record BookFormat : Type := mkBookFormat {
  id : string;
  name : string;
  noBleed : Dimensions;
  withBleed : Dimensions;
  isSpread : bool;
  gutterWidth : float;
  spineWidth : option float;     (* [spineWidth?: number] *)
  pageCount : option Z           (* [pageCount?: number] *)
}.

(** Assignments to the fields the handlers overwrite
    ([format.gutterWidth = ...], [format.pageCount = ...],
    [format.spineWidth = ...]). *)
Definition set_gutterWidth (g : float) (f : BookFormat) : BookFormat :=
  mkBookFormat (id f) (name f) (noBleed f) (withBleed f) (isSpread f)
               g (spineWidth f) (pageCount f).

Definition set_pageCount (n : Z) (f : BookFormat) : BookFormat :=
  mkBookFormat (id f) (name f) (noBleed f) (withBleed f) (isSpread f)
               (gutterWidth f) (spineWidth f) (Some n).

Definition set_spineWidth (s : float) (f : BookFormat) : BookFormat :=
  mkBookFormat (id f) (name f) (noBleed f) (withBleed f) (isSpread f)
               (gutterWidth f) (Some s) (pageCount f).

(** The entries of the [BOOK_FORMATS] literal, in the order of the source. *)
Definition BOOK_FORMATS_entries : list (string * BookFormat) :=
  [ ("pocketbook",
     mkBookFormat "pocketbook" "Pocketbook"
       (mkDimensions 4.25 6.875) (mkDimensions 4.5 7.125)
       false 0 None None);
    ("digest",
     mkBookFormat "digest" "Digest"
       (mkDimensions 5.5 8.5) (mkDimensions 5.75 8.75)
       false 0 None None);
    ("a5",
     mkBookFormat "a5" "A5"
       (mkDimensions 5.83 8.27) (mkDimensions 6.08 8.52)
       false 0 None None);
    ("royal",
     mkBookFormat "royal" "Royal"
       (mkDimensions 6.14 9.21) (mkDimensions 6.39 9.46)
       false 0 None None);
    ("usTrade",
     mkBookFormat "usTrade" "US Trade"
       (mkDimensions 6 9) (mkDimensions 6.25 9.25)
       false 0 None None);
    ("comicBook",
     mkBookFormat "comicBook" "Comic Book"
       (mkDimensions 6.63 10.25) (mkDimensions 6.88 10.5)
       false 0 None None);
    ("pocketbookSpread",
     mkBookFormat "pocketbookSpread" "Pocketbook Cover"
       (mkDimensions 8.5 6.875) (mkDimensions 9 7.125)
       true 0.125 (Some 0%float) None);
    ("digestSpread",
     mkBookFormat "digestSpread" "Digest Cover"
       (mkDimensions 11 8.5) (mkDimensions 11.5 8.75)
       true 0.125 (Some 0%float) None) ]%float.

Definition BOOK_FORMATS : gmap string BookFormat :=
  list_to_map BOOK_FORMATS_entries.

Definition getGutterWidth (pageCount : Z) : float :=
  if pageCount <? 60 then 0%float
  else if pageCount <=? 150 then 0.125%float
  else if pageCount <=? 400 then 0.5%float
  else if pageCount <=? 600 then 0.625%float
  else 0.75%float.

Definition calculatePaperbackSpineWidth (pageCount : Z) : float :=
  ((number_of_Z pageCount / 444) + 0.06)%float.

Definition calculateHardcoverSpineWidth (pageCount : Z) : float :=
  if pageCount <? 24 then 0%float
  else if pageCount <=? 84 then 0.25%float
  else if pageCount <=? 140 then 0.5%float
  else if pageCount <=? 168 then 0.625%float
  else if pageCount <=? 194 then 0.688%float
  else if pageCount <=? 222 then 0.75%float
  else if pageCount <=? 250 then 0.813%float
  else if pageCount <=? 278 then 0.875%float
  else if pageCount <=? 306 then 0.938%float
  else if pageCount <=? 334 then 1.0%float
  else if pageCount <=? 360 then 1.063%float
  else if pageCount <=? 388 then 1.125%float
  else if pageCount <=? 416 then 1.188%float
  else if pageCount <=? 444 then 1.25%float
  else if pageCount <=? 472 then 1.313%float
  else if pageCount <=? 500 then 1.375%float
  else if pageCount <=? 528 then 1.438%float
  else if pageCount <=? 556 then 1.5%float
  else if pageCount <=? 582 then 1.563%float
  else 1.625%float.

(** The two step rules as they read on a [number]. *)
Definition getGutterWidth_number (pageCount : float) : float :=
  (if pageCount <? 60 then 0
   else if pageCount <=? 150 then 0.125
   else if pageCount <=? 400 then 0.5
   else if pageCount <=? 600 then 0.625
   else 0.75)%float.

Definition calculateHardcoverSpineWidth_number (pageCount : float) : float :=
  (if pageCount <? 24 then 0
   else if pageCount <=? 84 then 0.25
   else if pageCount <=? 140 then 0.5
   else if pageCount <=? 168 then 0.625
   else if pageCount <=? 194 then 0.688
   else if pageCount <=? 222 then 0.75
   else if pageCount <=? 250 then 0.813
   else if pageCount <=? 278 then 0.875
   else if pageCount <=? 306 then 0.938
   else if pageCount <=? 334 then 1.0
   else if pageCount <=? 360 then 1.063
   else if pageCount <=? 388 then 1.125
   else if pageCount <=? 416 then 1.188
   else if pageCount <=? 444 then 1.25
   else if pageCount <=? 472 then 1.313
   else if pageCount <=? 500 then 1.375
   else if pageCount <=? 528 then 1.438
   else if pageCount <=? 556 then 1.5
   else if pageCount <=? 582 then 1.563
   else 1.625)%float.

End types.

(** ** [src/components/Controls/Controls.tsx] *)

Module Controls.
Import types.

(** *** Property access on the catalog object

    [BOOK_FORMATS] is an object literal, so [BOOK_FORMATS[key]] finds the
    own property [key] when there is one, and otherwise what the object
    inherits from [Object.prototype]; it is [undefined] only when neither
    has the key.  The inherited values (the [Object] constructor, the
    built-in methods, and the prototype itself under ["__proto__"]) are all
    truthy objects with no [isSpread] or [noBleed] property and no own
    enumerable property. *)
Definition Object_prototype : list string :=
  [ "constructor"; "hasOwnProperty"; "isPrototypeOf"; "propertyIsEnumerable";
    "toLocaleString"; "toString"; "valueOf"; "__proto__";
    "__defineGetter__"; "__defineSetter__";
    "__lookupGetter__"; "__lookupSetter__" ].

Inductive Property : Type :=
| Entry (f : BookFormat)      (* an own property: a catalog entry *)
| Inherited                   (* a built-in of [Object.prototype] *)
| Undefined.

Definition BOOK_FORMATS_get (key : string) : Property :=
  match BOOK_FORMATS !! key with
  | Some f => Entry f
  | None => if bool_decide (key ∈ Object_prototype) then Inherited
            else Undefined
  end.

(** *** Format objects under construction

    The handlers build the format they hand to [onFormatChange] by
    spreading a catalog property into a fresh object and assigning fields.
    Spreading [undefined], or a built-in, gives the empty object, which the
    assignments then fill in part: [Sparse].  [Builtin] is an inherited
    value passed on as it is. *)
Inductive FormatObj : Type :=
| Complete (f : BookFormat)
| Sparse (gutterWidth : option float) (spineWidth : option float)
         (pageCount : option Z)
| Builtin.

(** [{ ...p }] *)
Definition spread (p : Property) : FormatObj :=
  match p with
  | Entry f => Complete f
  | Inherited | Undefined => Sparse None None None
  end.

(** [format.gutterWidth = g] *)
Definition assign_gutterWidth (g : float) (o : FormatObj) : FormatObj :=
  match o with
  | Complete f => Complete (set_gutterWidth g f)
  | Sparse _ s n => Sparse (Some g) s n
  | Builtin => Builtin
  end.

(** [format.pageCount = n] *)
Definition assign_pageCount (n : Z) (o : FormatObj) : FormatObj :=
  match o with
  | Complete f => Complete (set_pageCount n f)
  | Sparse g s _ => Sparse g s (Some n)
  | Builtin => Builtin
  end.

(** [format.spineWidth = s] *)
Definition assign_spineWidth (s : float) (o : FormatObj) : FormatObj :=
  match o with
  | Complete f => Complete (set_spineWidth s f)
  | Sparse g _ n => Sparse g (Some s) n
  | Builtin => Builtin
  end.

(** The truth value of [format.isSpread] ([undefined] is falsy). *)
Definition truthy_isSpread (o : FormatObj) : bool :=
  match o with
  | Complete f => types.isSpread f
  | Sparse _ _ _ | Builtin => false
  end.

(** *** Component state ([useState]) *)

Inductive BindingType : Type := paperback | hardcover.

Record State : Type := mkState {
  selectedFormat : string;
  pageCount : Z;
  isSpread : bool;
  bindingType : BindingType;
  customWidth : float;
  customHeight : float;
  useCustomSize : bool
}.

Definition initialState : State :=
  mkState "usTrade" 60 false paperback 0%float 0%float false.

Definition setSelectedFormat (v : string) (st : State) : State :=
  mkState v (pageCount st) (isSpread st) (bindingType st)
          (customWidth st) (customHeight st) (useCustomSize st).
Definition setPageCount (v : Z) (st : State) : State :=
  mkState (selectedFormat st) v (isSpread st) (bindingType st)
          (customWidth st) (customHeight st) (useCustomSize st).
Definition setIsSpread (v : bool) (st : State) : State :=
  mkState (selectedFormat st) (pageCount st) v (bindingType st)
          (customWidth st) (customHeight st) (useCustomSize st).
Definition setBindingType (v : BindingType) (st : State) : State :=
  mkState (selectedFormat st) (pageCount st) (isSpread st) v
          (customWidth st) (customHeight st) (useCustomSize st).
Definition setCustomWidth (v : float) (st : State) : State :=
  mkState (selectedFormat st) (pageCount st) (isSpread st) (bindingType st)
          v (customHeight st) (useCustomSize st).
Definition setCustomHeight (v : float) (st : State) : State :=
  mkState (selectedFormat st) (pageCount st) (isSpread st) (bindingType st)
          (customWidth st) v (useCustomSize st).
Definition setUseCustomSize (v : bool) (st : State) : State :=
  mkState (selectedFormat st) (pageCount st) (isSpread st) (bindingType st)
          (customWidth st) (customHeight st) v.

(** *** What a handler does

    A handler reads the state of the render it was created in ([st], which
    the setters do not change under its feet), queues state updates
    ([next]), calls the callbacks of the parent ([calls], in order) and may
    stop on an exception ([thrown]); updates queued before the exception
    stay queued. *)
Inductive Call : Type :=
| onFormatChange (format : FormatObj)
| onPageCountChange (count : Z).

Inductive JsError : Type := TypeError.

Record Outcome : Type := mkOutcome {
  next : State;
  calls : list Call;
  thrown : option JsError
}.

Definition done_with (st : State) (cs : list Call) : Outcome :=
  mkOutcome st cs None.
Definition throw (st : State) (cs : list Call) : Outcome :=
  mkOutcome st cs (Some TypeError).

(** The formats a handler passed to [onFormatChange]. *)
Definition emitted (o : Outcome) : list FormatObj :=
  omap (fun c => match c with
                 | onFormatChange f => Some f
                 | onPageCountChange _ => None
                 end) (calls o).

(** [bindingType === 'paperback' ? calculatePaperbackSpineWidth(n)
                                 : calculateHardcoverSpineWidth(n)] *)
Definition spineWidthFor (b : BindingType) (n : Z) : float :=
  match b with
  | paperback => calculatePaperbackSpineWidth n
  | hardcover => calculateHardcoverSpineWidth n
  end.

(** The object literal with [id: 'custom'] that every custom path writes
    out: [noBleed] is the given size, [withBleed] adds 0.25 to each. *)
Definition customFormat (w h : float) (spreadFlag : bool) (n : Z)
  : BookFormat :=
  mkBookFormat "custom" "Custom Size"
    (mkDimensions w h)
    (mkDimensions (w + 0.25) (h + 0.25))%float
    spreadFlag (getGutterWidth n) None (Some n).

(** [x || 0] on a number: [NaN], [0] and [-0] are falsy. *)
Definition or_zero (x : float) : float :=
  if (PrimFloat.is_nan x || PrimFloat.eqb x 0)%bool then 0%float else x.

(** [s.replace(pat, rep)] with a string pattern: the first occurrence. *)
Fixpoint replace (pat rep s : string) : string :=
  if String.prefix pat s
  then rep +:+ String.substring (String.length pat)
                 (String.length s - String.length pat)%nat s
  else match s with
       | EmptyString => EmptyString
       | String c s' => String c (replace pat rep s')
       end.

Definition updateFormat (st : State) : list Call :=
  let format :=
    if useCustomSize st
    then Complete (customFormat (customWidth st) (customHeight st)
                                (isSpread st) (pageCount st))
    else spread (BOOK_FORMATS_get (selectedFormat st)) in
  let format := assign_gutterWidth (getGutterWidth (pageCount st)) format in
  let format := assign_pageCount (pageCount st) format in
  let format :=
    if truthy_isSpread format
    then assign_spineWidth (spineWidthFor (bindingType st) (pageCount st))
                           format
    else format in
  [onFormatChange format].

Definition handleFormatChange (formatId : string) (st : State) : Outcome :=
  let st1 := setUseCustomSize false (setSelectedFormat formatId st) in
  match BOOK_FORMATS_get formatId with
  | Undefined => throw st1 []         (* [undefined.isSpread] *)
  | p =>
      let st2 := setIsSpread (truthy_isSpread (spread p)) st1 in
      let format := spread p in
      let format :=
        assign_gutterWidth (getGutterWidth (pageCount st)) format in
      let format :=
        if truthy_isSpread format
        then assign_spineWidth
               (spineWidthFor (bindingType st) (pageCount st))
               (assign_pageCount (pageCount st) format)
        else format in
      done_with st2 [onFormatChange format]
  end.

(** [parsed] is the result of [parseInt(e.target.value)], [None] for
    [NaN]. *)
Definition handlePageCountChange (parsed : option Z) (st : State)
  : Outcome :=
  let count := default 0 parsed in
  let st' := setPageCount count st in
  let format :=
    if useCustomSize st
    then Complete (customFormat (customWidth st) (customHeight st)
                                (isSpread st) count)
    else spread (BOOK_FORMATS_get (selectedFormat st)) in
  let format := assign_gutterWidth (getGutterWidth count) format in
  let format := assign_pageCount count format in
  let format :=
    if truthy_isSpread format
    then assign_spineWidth (spineWidthFor (bindingType st) count) format
    else format in
  done_with st' [onPageCountChange count; onFormatChange format].

Definition handleToggleSpread (isSpreadValue : bool) (st : State)
  : Outcome :=
  let st1 := setIsSpread isSpreadValue st in
  if useCustomSize st then
    let format := customFormat (customWidth st) (customHeight st)
                               isSpreadValue (pageCount st) in
    let format :=
      if isSpreadValue
      then set_spineWidth (spineWidthFor (bindingType st) (pageCount st))
                          format
      else format in
    done_with st1 [onFormatChange (Complete format)]
  else if isSpreadValue then
    let spreadFormatId := selectedFormat st +:+ "Spread" in
    match BOOK_FORMATS_get spreadFormatId with
    | Undefined => done_with st1 []
    | p =>
        let format := spread p in
        let format :=
          assign_gutterWidth (getGutterWidth (pageCount st)) format in
        let format := assign_pageCount (pageCount st) format in
        let format :=
          assign_spineWidth (spineWidthFor (bindingType st) (pageCount st))
                            format in
        done_with (setSelectedFormat spreadFormatId st1)
                  [onFormatChange format]
    end
  else
    let singleFormatId := replace "Spread" "" (selectedFormat st) in
    match BOOK_FORMATS_get singleFormatId with
    | Undefined => done_with st1 []
    | Entry f =>
        done_with (setSelectedFormat singleFormatId st1)
                  [onFormatChange (Complete f)]
    | Inherited =>
        done_with (setSelectedFormat singleFormatId st1)
                  [onFormatChange Builtin]
    end.

Definition handleBindingTypeChange (type : BindingType) (st : State)
  : Outcome :=
  let st1 := setBindingType type st in
  if isSpread st then
    let format :=
      if useCustomSize st
      then Complete (customFormat (customWidth st) (customHeight st)
                                  true (pageCount st))
      else spread (BOOK_FORMATS_get (selectedFormat st)) in
    let format := assign_pageCount (pageCount st) format in
    let format :=
      assign_spineWidth (spineWidthFor type (pageCount st)) format in
    done_with st1 [onFormatChange format]
  else done_with st1 [].

(** [parsed] is the result of [parseFloat(e.target.value)]. *)
Definition handleCustomWidthChange (parsed : float) (st : State)
  : Outcome :=
  let width := or_zero parsed in
  let st1 := setCustomWidth width st in
  if useCustomSize st then done_with st1 (updateFormat st)
  else done_with st1 [].

Definition handleCustomHeightChange (parsed : float) (st : State)
  : Outcome :=
  let height := or_zero parsed in
  let st1 := setCustomHeight height st in
  if useCustomSize st then done_with st1 (updateFormat st)
  else done_with st1 [].

Definition handleToggleCustomSize (useCustom : bool) (st : State)
  : Outcome :=
  let st1 := setUseCustomSize useCustom st in
  if (useCustom && PrimFloat.eqb (customWidth st) 0
                && PrimFloat.eqb (customHeight st) 0)%bool then
    match BOOK_FORMATS_get (selectedFormat st) with
    | Entry currentFormat =>
        let st2 :=
          setCustomHeight (height (noBleed currentFormat))
            (setCustomWidth (width (noBleed currentFormat)) st1) in
        let format :=
          customFormat (width (noBleed currentFormat))
                       (height (noBleed currentFormat))
                       (isSpread st) (pageCount st) in
        let format :=
          if isSpread st
          then set_spineWidth
                 (spineWidthFor (bindingType st) (pageCount st)) format
          else format in
        done_with st2 [onFormatChange (Complete format)]
    | Inherited | Undefined => throw st1 []   (* [....noBleed.width] *)
    end
  else if negb useCustom then
    let format := spread (BOOK_FORMATS_get (selectedFormat st)) in
    let format :=
      assign_gutterWidth (getGutterWidth (pageCount st)) format in
    let format := assign_pageCount (pageCount st) format in
    let format :=
      if truthy_isSpread format
      then assign_spineWidth
             (spineWidthFor (bindingType st) (pageCount st)) format
      else format in
    done_with st1 [onFormatChange format]
  else done_with st1 [].

(** The events of the format controls, and the handler of each. *)
Inductive Event : Type :=
| FormatChange (formatId : string)
| PageCountChange (parsed : option Z)
| ToggleSpread (checked : bool)
| BindingTypeChange (type : BindingType)
| CustomWidthChange (parsed : float)
| CustomHeightChange (parsed : float)
| ToggleCustomSize (checked : bool).

Definition handle (e : Event) (st : State) : Outcome :=
  match e with
  | FormatChange formatId => handleFormatChange formatId st
  | PageCountChange parsed => handlePageCountChange parsed st
  | ToggleSpread checked => handleToggleSpread checked st
  | BindingTypeChange type => handleBindingTypeChange type st
  | CustomWidthChange parsed => handleCustomWidthChange parsed st
  | CustomHeightChange parsed => handleCustomHeightChange parsed st
  | ToggleCustomSize checked => handleToggleCustomSize checked st
  end.

End Controls.

(** ** [src/components/Canvas/CanvasEditor.tsx]: the guide lines *)

Module CanvasEditor.
Import types.

(** The objects the guide drawing adds to the canvas, with their geometry
    and their [data] tag (stroke and fill are left out). *)
Inductive FabricObject : Type :=
| Rect (left top width height : float) (data_type data_name : string)
| Line (x1 y1 x2 y2 : float) (data_type data_name : string).

Definition data_type_of (o : FabricObject) : string :=
  match o with
  | Rect _ _ _ _ t _ | Line _ _ _ _ t _ => t
  end.


Local Open Scope float_scope.

(** [canvas.add(o)] appends to the canvas's objects. *)
Definition drawBleedMargins (canvas : list FabricObject)
    (format : BookFormat) (dpi : float) : list FabricObject :=
  let bleed := 0.125 * dpi in
  let width := width (withBleed format) * dpi in
  let height := height (withBleed format) * dpi in
  canvas ++ [Rect bleed bleed (width - 2 * bleed) (height - 2 * bleed)
                  "guideline" "trim"].

Definition drawSafetyMargins (canvas : list FabricObject)
    (format : BookFormat) (dpi : float) : list FabricObject :=
  let bleed := 0.125 * dpi in
  let safety := 0.25 * dpi in
  let width := width (withBleed format) * dpi in
  let height := height (withBleed format) * dpi in
  canvas ++ [Rect (bleed + safety) (bleed + safety)
                  (width - 2 * (bleed + safety))
                  (height - 2 * (bleed + safety))
                  "guideline" "safety"].

Definition drawGutterArea (canvas : list FabricObject)
    (format : BookFormat) (dpi : float) : list FabricObject :=
  if negb (isSpread format) then canvas
  else
    let width := width (withBleed format) * dpi in
    let height := height (withBleed format) * dpi in
    let centerLine :=
      Line (width / 2) 0 (width / 2) height "guideline" "gutter" in
    let gutterWidth := gutterWidth format * dpi in
    let canvas :=
      if 0 <? gutterWidth then
        let leftGutter := width / 2 - gutterWidth / 2 in
        canvas ++ [Rect leftGutter 0 gutterWidth height
                        "guideline" "gutterArea"]
      else canvas in
    let canvas :=
      match spineWidth format with
      | Some s =>
          (* [format.spineWidth && format.spineWidth > 0] *)
          if (negb (PrimFloat.is_nan s || PrimFloat.eqb s 0) && (0 <? s))%bool
          then
            let spineWidth := s * dpi in
            let leftSpine := width / 2 - spineWidth / 2 in
            canvas ++ [Rect leftSpine 0 spineWidth height
                            "guideline" "spine"]
          else canvas
      | None => canvas
      end in
    canvas ++ [centerLine].

(** The guide part of the effect that runs when the format or a toggle
    changes: the old guides and grid are removed, then each enabled guide
    is drawn at 72 dots per inch (the grid and the rulers are drawn in
    [CanvasRedraw]). *)
Definition drawGuides (canvas : list FabricObject) (bookFormat : BookFormat)
    (showBleed showSafety showGutter : bool) : list FabricObject :=
  let dpi := 72 in
  let canvas :=
    filter (fun o => data_type_of o ≠ "guideline"
                     ∧ data_type_of o ≠ "grid") canvas in
  let canvas :=
    if showBleed then drawBleedMargins canvas bookFormat dpi else canvas in
  let canvas :=
    if showSafety then drawSafetyMargins canvas bookFormat dpi else canvas in
  if showGutter then drawGutterArea canvas bookFormat dpi else canvas.

Local Close Scope float_scope.


End CanvasEditor.

(** ** [src/components/Controls/Controls.tsx]: the display toggles *)

Module Display.

Record Toggles : Type := mkToggles {
  showBleed : bool;
  showGutter : bool;
  showSafety : bool;
  previewMode : bool
}.

Definition initialToggles : Toggles := mkToggles true true true false.

Inductive Call : Type :=
| onToggleBleed (show : bool)
| onToggleGutter (show : bool)
| onToggleSafety (show : bool).

Definition handleToggleBleed (checked : bool) (t : Toggles)
  : Toggles * list Call :=
  (mkToggles checked (showGutter t) (showSafety t) (previewMode t),
   [onToggleBleed checked]).

Definition handleToggleGutter (checked : bool) (t : Toggles)
  : Toggles * list Call :=
  (mkToggles (showBleed t) checked (showSafety t) (previewMode t),
   [onToggleGutter checked]).

Definition handleToggleSafety (checked : bool) (t : Toggles)
  : Toggles * list Call :=
  (mkToggles (showBleed t) (showGutter t) checked (previewMode t),
   [onToggleSafety checked]).

Definition handleTogglePreviewMode (checked : bool) (t : Toggles)
  : Toggles * list Call :=
  (mkToggles (showBleed t) (showGutter t) (showSafety t) checked,
   if checked
   then [onToggleBleed false; onToggleGutter false; onToggleSafety false]
   else [onToggleBleed (showBleed t); onToggleGutter (showGutter t);
         onToggleSafety (showSafety t)]).

Inductive Event : Type :=
| ToggleBleed (checked : bool)
| ToggleGutter (checked : bool)
| ToggleSafety (checked : bool)
| TogglePreviewMode (checked : bool).

Definition handle (e : Event) (t : Toggles) : Toggles * list Call :=
  match e with
  | ToggleBleed checked => handleToggleBleed checked t
  | ToggleGutter checked => handleToggleGutter checked t
  | ToggleSafety checked => handleToggleSafety checked t
  | TogglePreviewMode checked => handleTogglePreviewMode checked t
  end.

(** The three guide checkboxes are rendered with
    [disabled={previewMode}]; the preview checkbox is always enabled. *)
Definition enabled (e : Event) (t : Toggles) : bool :=
  match e with
  | TogglePreviewMode _ => true
  | _ => negb (previewMode t)
  end.

End Display.

(** ** [src/components/Canvas/CanvasEditor.tsx]: zooming *)

Module CanvasZoom.

Local Open Scope float_scope.

Definition is_positive_zero (x : float) : bool :=
  (x =? 0) && negb (PrimFloat.get_sign x).
Definition is_negative_zero (x : float) : bool :=
  (x =? 0) && PrimFloat.get_sign x.

(** [Math.max(...args)]: [NaN] as soon as an argument is [NaN]; otherwise
    the highest so far starts at minus infinity, becomes [+0] when it is
    [-0] and the argument is [+0], and becomes the argument when that is
    greater. *)
Fixpoint Math_max_from (highest : float) (args : list float) : float :=
  match args with
  | [] => highest
  | number :: rest =>
      if PrimFloat.is_nan number then PrimFloat.nan
      else
        let highest :=
          if is_positive_zero number && is_negative_zero highest
          then 0 else highest in
        let highest := if highest <? number then number else highest in
        Math_max_from highest rest
  end.

Definition Math_max (args : list float) : float :=
  Math_max_from PrimFloat.neg_infinity args.

(** [Math.min(...args)], the mirror image. *)
Fixpoint Math_min_from (lowest : float) (args : list float) : float :=
  match args with
  | [] => lowest
  | number :: rest =>
      if PrimFloat.is_nan number then PrimFloat.nan
      else
        let lowest :=
          if is_negative_zero number && is_positive_zero lowest
          then (-0) else lowest in
        let lowest := if number <? lowest then number else lowest in
        Math_min_from lowest rest
  end.

Definition Math_min (args : list float) : float :=
  Math_min_from PrimFloat.infinity args.

(** The zoom the wheel handler sets ([setZoom(newZoom)], after
    [canvas.zoomToPoint] with the same value), for the [zoom] of the render
    it was created in and the event's [deltaY]; nothing without a
    canvas. *)
Definition handleMouseWheel (canvas : bool) (zoom deltaY : float)
  : option float :=
  if negb canvas then None
  else
    let newZoom := zoom in
    let newZoom := if 0 <? deltaY then newZoom * 0.9 else newZoom * 1.1 in
    let newZoom := Math_min [Math_max [0.1; newZoom]; 10] in
    Some newZoom.

Definition handleZoomIn (canvas : bool) (zoom : float) : option float :=
  if negb canvas then None else Some (zoom * 1.2).

Definition handleZoomOut (canvas : bool) (zoom : float) : option float :=
  if negb canvas then None else Some (zoom * 0.8).

End CanvasZoom.

(** ** [src/fabric.d.ts]: canvas objects

    What the export panel and the image tools read of an object on the
    canvas: its position, angle and scaled size, whether it is visible, and
    the [data] the editor attaches to it. *)

Module fabric.

Record ObjectData : Type := mkObjectData {
  type : option string;
  name : option string;
  isPlaceholder : option bool;
  placeholderName : option string
}.

Record Object : Type := mkObject {
  left : float;
  top : float;
  angle : float;
  getScaledWidth : float;
  getScaledHeight : float;
  visible : bool;
  data : option ObjectData
}.

(** [obj.set({ visible: v })] *)
Definition set_visible (v : bool) (obj : Object) : Object :=
  mkObject (left obj) (top obj) (angle obj) (getScaledWidth obj)
           (getScaledHeight obj) v (data obj).

End fabric.

(** ** [src/components/Canvas/CanvasEditor.tsx]: grid, rulers and the redraw *)

Module CanvasRedraw.
Import types CanvasEditor.

(** What the redraw finds on the canvas and adds to it: the rectangles and
    lines of [CanvasEditor] with their [data] tag, the grid lines, whose
    [data] is [{ type: 'grid' }] with no name, the ruler labels,
    [fabric.Text] objects with [data: { type: 'guideline', name }], and the
    objects placed by the other components (pictures, placeholders), with
    whatever [data] they carry. *)
Inductive CanvasObject : Type :=
| Shape (o : FabricObject)
| GridLine (x1 y1 x2 y2 : float)
| Text (text : string) (left top fontSize : float) (data_name : string)
| Placed (obj : fabric.Object).

(** [obj.data?.type] *)
Definition type_of (obj : CanvasObject) : option string :=
  match obj with
  | Shape o => Some (data_type_of o)
  | GridLine _ _ _ _ => Some "grid"
  | Text _ _ _ _ _ => Some "guideline"
  | Placed obj => fabric.data obj ≫= fabric.type
  end.

Local Open Scope float_scope.

(** [for (let i = start; i <= limit; i += step) { canvas.add(...) }], where
    [body i] lists the objects added in the round of [i]; [None] when
    [fuel] rounds do not end the loop. *)
Fixpoint for_loop (fuel : nat) (i limit step : float)
    (body : float -> list CanvasObject) (canvas : list CanvasObject)
  : option (list CanvasObject) :=
  match fuel with
  | O => None
  | S fuel' =>
      if i <=? limit
      then for_loop fuel' (i + step) limit step body (canvas ++ body i)
      else Some canvas
  end.

Section Redraw.
(** Three operations on numbers are left open: [x % y], [Math.round(x)] and
    [x.toString()]. *)
Variable remainder : float -> float -> float.
Variable Math_round : float -> float.
Variable toString : float -> string.
(** The grid size chosen in the toolbar, in inches (the state
    [gridSize]). *)
Variable gridSize : float.

Definition drawGrid (fuel : nat) (canvas : list CanvasObject)
    (width height dpi : float) : option (list CanvasObject) :=
  let gridSpacing := gridSize * dpi in
  canvas ← for_loop fuel 0 width gridSpacing
             (fun i => [GridLine i 0 i height]) canvas;
  for_loop fuel 0 height gridSpacing
    (fun i => [GridLine 0 i width i]) canvas.

Definition drawRulers (fuel : nat) (canvas : list CanvasObject)
    (width height dpi : float) : option (list CanvasObject) :=
  let rulerWidth := 20 in
  let majorTickSpacing := 1 * dpi in
  let minorTickSpacing := 0.25 * dpi in
  let hRuler := Shape (Rect 0 0 width rulerWidth "guideline" "hRuler") in
  let vRuler := Shape (Rect 0 0 rulerWidth height "guideline" "vRuler") in
  let canvas := canvas ++ [hRuler] in
  let canvas := canvas ++ [vRuler] in
  canvas ← for_loop fuel 0 width minorTickSpacing
             (fun i =>
                let isMajorTick := remainder i majorTickSpacing <? 0.001 in
                let tickHeight :=
                  if isMajorTick then rulerWidth / 2 else rulerWidth / 4 in
                Shape (Line i 0 i tickHeight "guideline" "hTick")
                :: (if isMajorTick then
                      let inchValue := Math_round (i / dpi * 10) / 10 in
                      [Text (toString inchValue) (i + 2) tickHeight 8
                            "hLabel"]
                    else []))
             canvas;
  for_loop fuel 0 height minorTickSpacing
    (fun i =>
       let isMajorTick := remainder i majorTickSpacing <? 0.001 in
       let tickWidth :=
         if isMajorTick then rulerWidth / 2 else rulerWidth / 4 in
       Shape (Line 0 i tickWidth i "guideline" "vTick")
       :: (if isMajorTick then
             let inchValue := Math_round (i / dpi * 10) / 10 in
             [Text (toString inchValue) 2 (i + 2) 8 "vLabel"]
           else []))
    canvas.

(** The effect that runs when the format, a toggle or the grid size
    changes, as far as the objects on the canvas go (the canvas size and
    the zoom it also sets are left out): the old guides and grid are
    removed, then what is enabled is drawn at 72 dots per inch. The three
    guide functions of [CanvasEditor] add their objects at the end of the
    canvas; what each adds is appended here. *)
Definition redraw (fuel : nat) (canvas : list CanvasObject)
    (bookFormat : BookFormat)
    (showBleed showSafety showGutter showGrid showRulers : bool)
  : option (list CanvasObject) :=
  let dpi := 72 in
  let width := width (withBleed bookFormat) * dpi in
  let height := height (withBleed bookFormat) * dpi in
  let canvas :=
    filter (fun obj => type_of obj ≠ Some "guideline"
                       ∧ type_of obj ≠ Some "grid") canvas in
  let canvas :=
    if showBleed
    then canvas ++ (Shape <$> drawBleedMargins [] bookFormat dpi)
    else canvas in
  let canvas :=
    if showSafety
    then canvas ++ (Shape <$> drawSafetyMargins [] bookFormat dpi)
    else canvas in
  let canvas :=
    if showGutter
    then canvas ++ (Shape <$> drawGutterArea [] bookFormat dpi)
    else canvas in
  canvas ← (if showGrid then drawGrid fuel canvas width height dpi
            else Some canvas);
  if showRulers then drawRulers fuel canvas width height dpi
  else Some canvas.

End Redraw.

Local Close Scope float_scope.

End CanvasRedraw.

(** ** [src/lib/types.ts]: templates *)

Module template.

Inductive ElementType : Type := image | text | placeholder.

Record TemplateElement : Type := mkTemplateElement {
  id : string;
  type : ElementType;
  name : string;
  x : float;
  y : float;
  width : float;
  height : float;
  rotation : float;
  isPlaceholder : bool;
  content : option string;
  src : option string
}.

Record Template : Type := mkTemplate {
  template_id : string;
  template_name : string;
  format : types.BookFormat;
  elements : list TemplateElement
}.

End template.

(** ** [src/components/Export/ExportPanel.tsx] *)

Module ExportPanel.
Import template.

(** [obj.data?.type === 'guideline' || obj.data?.type === 'grid'] *)
Definition is_guide (obj : fabric.Object) : bool :=
  match fabric.data obj with
  | Some d =>
      bool_decide (fabric.type d = Some "guideline")
      || bool_decide (fabric.type d = Some "grid")
  | None => false
  end.

(** [x || d] on a number. *)
Definition number_or (x d : float) : float :=
  if (PrimFloat.is_nan x || PrimFloat.eqb x 0)%bool then d else x.

(** [s || d] on an optional string: [undefined] and [''] are falsy. *)
Definition string_or (s : option string) (d : string) : string :=
  match s with
  | Some (String c s') => String c s'
  | Some EmptyString | None => d
  end.

(** The truth value of an optional boolean. *)
Definition truthy (b : option bool) : bool := default false b.

(** The element written for the object at [index], for an object that
    has [data]. *)
Definition element_at (index : nat) (obj : fabric.Object)
    (d : fabric.ObjectData) : TemplateElement :=
  mkTemplateElement
    ("element-" +:+ pretty index)
    (if truthy (fabric.isPlaceholder d) then placeholder else image)
    (string_or (fabric.name d) ("Element " +:+ pretty index))
    (number_or (fabric.left obj) 0)
    (number_or (fabric.top obj) 0)
    (number_or (fabric.getScaledWidth obj) 100)
    (number_or (fabric.getScaledHeight obj) 100)
    (number_or (fabric.angle obj) 0)
    (truthy (fabric.isPlaceholder d))
    None None.

(** The body of the [forEach]: objects from position [index] on, pushing
    onto [elements]. *)
Fixpoint forEach_from (index : nat) (objs : list fabric.Object)
    (elements : list TemplateElement) : list TemplateElement :=
  match objs with
  | [] => elements
  | obj :: rest =>
      forEach_from (S index) rest
        (if is_guide obj then elements
         else match fabric.data obj with
              | Some d => elements ++ [element_at index obj d]
              | None => elements
              end)
  end.

Definition getElementsFromCanvas (canvas : option (list fabric.Object))
  : list TemplateElement :=
  match canvas with
  | None => []
  | Some objs => forEach_from 0 objs []
  end.

(** [{ ...template, name: templateName, elements: getElementsFromCanvas() }],
    the object both the preview and the export serialize. *)
Definition exportTemplate (t : Template) (templateName : string)
    (canvas : option (list fabric.Object)) : Template :=
  mkTemplate (template_id t) templateName (format t)
             (getElementsFromCanvas canvas).

(** The image export, as far as the canvas goes: the guides are hidden,
    the picture is taken ([captured]), and each guide gets back the
    visibility it had ([restored]).  [restore] walks the canvas and hands
    the saved values to the guides in order. *)
Definition hide_guides (objs : list fabric.Object) : list fabric.Object :=
  map (fun obj => if is_guide obj then fabric.set_visible false obj
                  else obj) objs.

Fixpoint restore (objs : list fabric.Object) (visibilityState : list bool)
  : list fabric.Object :=
  match objs with
  | [] => []
  | obj :: rest =>
      if is_guide obj then
        match visibilityState with
        | v :: vs => fabric.set_visible v obj :: restore rest vs
        | [] => obj :: restore rest []
        end
      else obj :: restore rest visibilityState
  end.

Record Capture : Type := mkCapture {
  captured : list fabric.Object;
  restored : list fabric.Object
}.

Definition handleExportPDF (canvas : option (list fabric.Object))
  : option Capture :=
  match canvas with
  | None => None
  | Some objs =>
      let guidelineObjects := filter (fun obj => is_guide obj = true) objs in
      let visibilityState := map fabric.visible guidelineObjects in
      let hidden := hide_guides objs in
      Some (mkCapture hidden (restore hidden visibilityState))
  end.

End ExportPanel.

(** ** [src/components/ImageUpload/ImageUploader.tsx]: placeholders and
       the tools on the selected object *)

Module ImageUploader.

Record State : Type := mkState {
  placeholderName : string;
  isPlaceholder : bool;
  uploadedImages : list (string * bool)    (* [{name, isPlaceholder}] *)
}.

(** The calls made on the canvas and on the selected object, with the
    arguments the source computes. *)
Inductive CanvasCall : Type :=
| add_group (left top : float) (d : fabric.ObjectData)
| add_cloned (left top : float)
| remove_active
| setActiveObject
| bringToFront
| sendToBack
| renderAll.

Record Outcome : Type := mkOutcome {
  next : State;
  canvas_calls : list CanvasCall;
  onImageAdded : list (string * bool)
}.

Definition nothing (st : State) : Outcome := mkOutcome st [] [].

(** [canvas] is [None] without a canvas, and its width and height
    otherwise. *)
Definition handleAddPlaceholder (canvas : option (float * float))
    (st : State) : Outcome :=
  match canvas with
  | None => nothing st
  | Some (width, height) =>
      match placeholderName st with
      | EmptyString => nothing st
      | name =>
          mkOutcome
            (mkState "" (isPlaceholder st)
                     (uploadedImages st ++ [(name, true)]))
            [add_group (width / 2 - 100) (height / 2 - 100)
                       (fabric.mkObjectData None (Some name) (Some true)
                                            (Some name));
             setActiveObject; renderAll]
            [(name, true)]
      end
  end.

(** The name under [activeObject.data?.name], when it is truthy. *)
Definition data_name (obj : fabric.Object) : option string :=
  match fabric.data obj with
  | Some d =>
      match fabric.name d with
      | Some (String c s) => Some (String c s)
      | Some EmptyString | None => None
      end
  | None => None
  end.

Definition handleDeleteSelected (canvas : bool)
    (activeObject : option fabric.Object) (st : State) : Outcome :=
  if negb canvas then nothing st
  else match activeObject with
       | None => nothing st
       | Some obj =>
           mkOutcome
             (match data_name obj with
              | Some n =>
                  mkState (placeholderName st) (isPlaceholder st)
                    (filter (fun img => fst img ≠ n) (uploadedImages st))
              | None => st
              end)
             [remove_active; renderAll] []
       end.

Definition handleBringToFront (canvas : bool)
    (activeObject : option fabric.Object) (st : State) : Outcome :=
  if negb canvas then nothing st
  else match activeObject with
       | None => nothing st
       | Some _ => mkOutcome st [bringToFront; renderAll] []
       end.

Definition handleSendToBack (canvas : bool)
    (activeObject : option fabric.Object) (st : State) : Outcome :=
  if negb canvas then nothing st
  else match activeObject with
       | None => nothing st
       | Some _ => mkOutcome st [sendToBack; renderAll] []
       end.

Definition handleDuplicate (canvas : bool)
    (activeObject : option fabric.Object) (st : State) : Outcome :=
  if negb canvas then nothing st
  else match activeObject with
       | None => nothing st
       | Some obj =>
           mkOutcome
             (match data_name obj with
              | Some n =>
                  mkState (placeholderName st) (isPlaceholder st)
                    (uploadedImages st
                     ++ [("Copy of " +:+ n,
                          match fabric.data obj with
                          | Some d => ExportPanel.truthy
                                        (fabric.isPlaceholder d)
                          | None => false
                          end)])
              | None => st
              end)
             [add_cloned
                (ExportPanel.number_or (fabric.left obj) 0 + 20)
                (ExportPanel.number_or (fabric.top obj) 0 + 20);
              setActiveObject; renderAll] []
       end.

End ImageUploader.

(** * Reference definitions

    What the documentation says, written down independently of the code,
    and the observations used to state the properties below. *)

Module Reference.
Import types Controls CanvasEditor.

(** ** Step tables

    The hardcover schedule as the documentation gives it: upper bounds of
    page-count brackets with the width of each, and the width beyond the
    last bound. *)
Definition upto (upper : Z) (w : float) : Z * float := (upper, w).

Definition hardcover_brackets : list (Z * float) :=
  [ upto 84 0.25; upto 140 0.5; upto 168 0.625; upto 194 0.688;
    upto 222 0.75; upto 250 0.813; upto 278 0.875; upto 306 0.938;
    upto 334 1.0; upto 360 1.063; upto 388 1.125; upto 416 1.188;
    upto 444 1.25; upto 472 1.313; upto 500 1.375; upto 528 1.438;
    upto 556 1.5; upto 582 1.563 ].

(** The width of the first bracket whose upper bound is at least [p]. *)
Fixpoint bracket_lookup (table : list (Z * float)) (beyond : float) (p : Z)
  : float :=
  match table with
  | [] => beyond
  | (upper, w) :: rest =>
      if p <=? upper then w else bracket_lookup rest beyond p
  end.

Definition hardcover_schedule (p : Z) : float :=
  if p <? 24 then 0%float
  else bracket_lookup hardcover_brackets 1.625%float p.

(** [v] is at most every width of [table], and at most [beyond]. *)
Definition below_all (v : float) (table : list (Z * float)) (beyond : float)
  : bool :=
  forallb (fun e => PrimFloat.leb v (snd e)) table && PrimFloat.leb v beyond.

(** The widths never decrease along the table (each is compared with
    itself and with all later ones, so no transitivity is needed). *)
Fixpoint widths_ascend (table : list (Z * float)) (beyond : float) : bool :=
  match table with
  | [] => PrimFloat.leb beyond beyond
  | (_, w) :: rest =>
      PrimFloat.leb w w && below_all w rest beyond
      && widths_ascend rest beyond
  end.

(** [check] holds of the [count] integers from [from] on. *)
Fixpoint holds_from (from : Z) (count : nat) (check : Z -> bool) : bool :=
  match count with
  | O => true
  | S count' => check from && holds_from (from + 1) count' check
  end.

(** The page counts the step rules compare with. *)
Definition thresholds : list Z :=
  [ 24; 60; 84; 140; 150; 168; 194; 222; 250; 278; 306; 334; 360; 388;
    400; 416; 444; 472; 500; 528; 556; 582; 600 ].

(** On the binary64 value [x] of [p] and [y] of [t], [<] and [<=] say what
    they say on the integers. *)
Definition compares_alike (p : Z) (x : float) (ty : Z * float) : bool :=
  Bool.eqb (PrimFloat.ltb x (snd ty)) (p <? fst ty)
  && Bool.eqb (PrimFloat.leb x (snd ty)) (p <=? fst ty).

(** The comparisons of [p] with every threshold of [table] (thresholds
    paired with their binary64 values) are alike. *)
Definition compares_with (table : list (Z * float)) (p : Z) : bool :=
  let x := number_of_Z p in forallb (compares_alike p x) table.

(** The rational a finite binary64 value denotes. *)
Definition Q_of_float (x : float) : option Q :=
  match Prim2SF x with
  | S754_zero _ => Some 0%Q
  | S754_finite s m e =>
      Some ((if s then -1 else 1) * inject_Z (Z.pos m) * Qpower 2 e)%Q
  | S754_infinity _ | S754_nan => None
  end.

(** The paperback rule over the rationals, without rounding. *)
Definition paperback_exact (p : Z) : Q := (inject_Z p / 444 + 6 / 100)%Q.

(** [x] denotes a rational within [2^-45] of [q]. *)
Definition near (x : float) (q : Q) : bool :=
  match Q_of_float x with
  | Some v => Qle_bool (Qabs (v - q)) (1 / Qpower 2 45)
  | None => false
  end.

(** [d'] is [d] with [dw] added to the width and [dh] to the height. *)
Definition adds_to (d : Dimensions) (dw dh : float) (d' : Dimensions)
  : Prop :=
  width d' = (width d + dw)%float /\ height d' = (height d + dh)%float.

(** Catalog-based resolution as it is documented: on a copy of the entry,
    the gutter width and the page count are overwritten, and for a spread
    the spine width as well. *)
Definition resolve (b : BindingType) (n : Z) (entry : BookFormat)
  : BookFormat :=
  let f := set_pageCount n (set_gutterWidth (getGutterWidth n) entry) in
  if types.isSpread entry then set_spineWidth (spineWidthFor b n) f else f.

(** The state after a sequence of events (an exception ends a handler,
    not the component). *)
Definition run (es : list Event) (st : State) : State :=
  fold_left (fun s e => next (handle e s)) es st.

(** The custom format of a trim size of [w] by [h]: the literal with the
    custom id, and for a spread the spine width of the binding. *)
Definition customResolved (b : BindingType) (w h : float)
    (spreadFlag : bool) (n : Z) : BookFormat :=
  let f := customFormat w h spreadFlag n in
  if spreadFlag then set_spineWidth (spineWidthFor b n) f else f.

(** The custom width and height the component holds. *)
Definition storedSize (st : State) : Dimensions :=
  mkDimensions (customWidth st) (customHeight st).

(** The events that carry a size typed into the custom width or height
    field. *)
Definition size_edit (e : Event) : bool :=
  match e with
  | CustomWidthChange _ | CustomHeightChange _ => true
  | _ => false
  end.

(** The id the toggle looks up: the selected id with ["Spread"] appended
    when the box is ticked, with ["Spread"] taken out when it is
    unticked. *)
Definition companionId (checked : bool) (formatId : string) : string :=
  if checked then formatId +:+ "Spread" else replace "Spread" "" formatId.


Definition centerLine (w h : float) : FabricObject :=
  Line (w / 2) 0 (w / 2) h "guideline" "gutter".

End Reference.

(** * Observations on the further code *)

Module Observations.
Import types Controls.

(** An event the format list can produce: the id chosen is one of the
    catalog. *)
Definition valid_event (e : Event) : Prop :=
  match e with
  | FormatChange formatId => is_Some (BOOK_FORMATS !! formatId)
  | _ => True
  end.

(** What each handler of a sequence of events does, each running in the
    state the one before it left. *)
Fixpoint outcomes (es : list Event) (st : State) : list Outcome :=
  match es with
  | [] => []
  | e :: es' => handle e st :: outcomes es' (next (handle e st))
  end.

Definition is_complete (o : FormatObj) : Prop :=
  match o with
  | Complete _ => True
  | Sparse _ _ _ | Builtin => False
  end.

Definition binding_change (e : Event) : bool :=
  match e with
  | BindingTypeChange _ => true
  | _ => false
  end.

(** The last six characters of a string (all of it when shorter). *)
Fixpoint last6 (s : string) : string :=
  match s with
  | EmptyString => EmptyString
  | String c s' => if (String.length s' <? 6)%nat then s else last6 s'
  end.

Fixpoint no_capital_S (s : string) : bool :=
  match s with
  | EmptyString => true
  | String c s' =>
      negb (String.eqb (String c EmptyString) "S") && no_capital_S s'
  end.

(** The zoom the wheel handler settles on for a scaled zoom [z]. *)
Definition clamp (z : float) : float :=
  CanvasZoom.Math_min [CanvasZoom.Math_max [0.1%float; z]; 10%float].

(** What the parent was last told to show, guide by guide. *)
Record Shown : Type := mkShown {
  bleed_shown : bool;
  gutter_shown : bool;
  safety_shown : bool
}.

Definition told (v : Shown) (c : Display.Call) : Shown :=
  match c with
  | Display.onToggleBleed b => mkShown b (gutter_shown v) (safety_shown v)
  | Display.onToggleGutter b => mkShown (bleed_shown v) b (safety_shown v)
  | Display.onToggleSafety b => mkShown (bleed_shown v) (gutter_shown v) b
  end.

(** One event of the display controls: a disabled checkbox fires nothing;
    otherwise the handler runs and the parent hears its calls in order. *)
Definition display_step (tv : Display.Toggles * Shown) (e : Display.Event)
  : Display.Toggles * Shown :=
  if Display.enabled e (fst tv)
  then (fst (Display.handle e (fst tv)),
        fold_left told (snd (Display.handle e (fst tv))) (snd tv))
  else tv.

Definition display_run (es : list Display.Event)
  : Display.Toggles * Shown :=
  fold_left display_step es
            (Display.initialToggles, mkShown true true true).

(** The parent shows what the checkboxes store, and nothing in preview. *)
Definition shown_as_stored (tv : Display.Toggles * Shown) : Prop :=
  snd tv
  = if Display.previewMode (fst tv) then mkShown false false false
    else mkShown (Display.showBleed (fst tv)) (Display.showGutter (fst tv))
                 (Display.showSafety (fst tv)).

(** An object the guide effect leaves alone: neither a guide nor part of
    the grid. *)
Definition user_object (o : CanvasEditor.FabricObject) : Prop :=
  CanvasEditor.data_type_of o ≠ "guideline"
  ∧ CanvasEditor.data_type_of o ≠ "grid".


(** A number that is neither [NaN] nor zero. *)
Definition nonzero_number (x : float) : Prop :=
  PrimFloat.is_nan x = false /\ PrimFloat.eqb x 0 = false.

(** What holds of every exported element. *)
Definition well_formed (e : template.TemplateElement) : Prop :=
  (template.type e = template.placeholder
   <-> template.isPlaceholder e = true)
  /\ template.type e ≠ template.text
  /\ template.name e ≠ ""
  /\ template.content e = None
  /\ template.src e = None
  /\ PrimFloat.is_nan (template.x e) = false
  /\ PrimFloat.is_nan (template.y e) = false
  /\ PrimFloat.is_nan (template.rotation e) = false
  /\ nonzero_number (template.width e)
  /\ nonzero_number (template.height e).

(** The custom width and height kept in the state are numbers. *)
Definition size_is_number (st : State) : Prop :=
  PrimFloat.is_nan (customWidth st) = false
  /\ PrimFloat.is_nan (customHeight st) = false.

(** An object the redraw leaves on the canvas: neither a guide nor part of
    the grid. *)
Definition kept (obj : CanvasRedraw.CanvasObject) : Prop :=
  CanvasRedraw.type_of obj ≠ Some "guideline"
  ∧ CanvasRedraw.type_of obj ≠ Some "grid".

(** An object the next redraw removes. *)
Definition guide_or_grid (obj : CanvasRedraw.CanvasObject) : Prop :=
  CanvasRedraw.type_of obj = Some "guideline"
  \/ CanvasRedraw.type_of obj = Some "grid".

(** A drawing step that only adds objects, after those on the canvas, and
    adds the same ones whatever is on it. *)
Definition appends
    (draw : list CanvasRedraw.CanvasObject
            -> option (list CanvasRedraw.CanvasObject)) : Prop :=
  forall canvas, draw canvas = (fun added => canvas ++ added) <$> draw [].

(** A drawing step whose objects are all guides or grid. *)
Definition draws_guides
    (draw : list CanvasRedraw.CanvasObject
            -> option (list CanvasRedraw.CanvasObject)) : Prop :=
  forall added, draw [] = Some added -> Forall guide_or_grid added.

(** Whether the loop [for (i = start; i <= limit; i += step)] ends within
    [fuel] rounds. *)
Fixpoint loop_ends (fuel : nat) (i limit step : float) : bool :=
  match fuel with
  | O => false
  | S fuel' =>
      if PrimFloat.leb i limit then loop_ends fuel' (i + step) limit step
      else true
  end.

(** The grid sizes the toolbar offers. *)
Definition grid_sizes : list float := [0.125; 0.25; 0.5; 1]%float.

End Observations.

(** * Properties of the specification rules and of the catalog *)

Module types_facts.
Import types Reference.

Lemma below_all_lookup v table beyond p :
  below_all v table beyond = true ->
  PrimFloat.leb v (bracket_lookup table beyond p) = true.
Proof.
  unfold below_all. induction table as [|[u w] rest IH]; simpl.
  - intros H. exact H.
  - rewrite !andb_true_iff. intros [[Hw Hrest] Hb].
    destruct (p <=? u); [exact Hw|].
    apply IH. rewrite Hrest, Hb. reflexivity.
Qed.

Lemma bracket_lookup_mono table beyond p q :
  widths_ascend table beyond = true ->
  p <= q ->
  PrimFloat.leb (bracket_lookup table beyond p)
                (bracket_lookup table beyond q) = true.
Proof.
  intros Hasc Hpq. induction table as [|[u w] rest IH]; simpl in *.
  - exact Hasc.
  - apply andb_true_iff in Hasc as [Hasc Hrest].
    apply andb_true_iff in Hasc as [Hww Hbelow].
    destruct (Z.leb_spec p u) as [Hp|Hp], (Z.leb_spec q u) as [Hq|Hq].
    + exact Hww.
    + apply below_all_lookup, Hbelow.
    + lia.
    + apply IH, Hrest.
Qed.

Lemma hardcover_follows_schedule p :
  calculateHardcoverSpineWidth p = hardcover_schedule p.
Proof. reflexivity. Qed.

(** Every catalog entry is one of the entries of the literal. *)
Lemma BOOK_FORMATS_lookup_Some (k : string) (f : BookFormat) :
  BOOK_FORMATS !! k = Some f -> (k, f) ∈ BOOK_FORMATS_entries.
Proof. apply elem_of_list_to_map_2. Qed.

Ltac each_entry H :=
  apply BOOK_FORMATS_lookup_Some in H;
  unfold BOOK_FORMATS_entries in H;
  repeat (apply elem_of_cons in H as [H|H]; [inversion H; subst; clear H|]);
  [..|apply elem_of_nil in H; destruct H].

(** ** Page counts as numbers *)

Lemma holds_from_spec (check : Z -> bool) (count : nat) (from p : Z) :
  holds_from from count check = true ->
  from <= p < from + Z.of_nat count ->
  check p = true.
Proof.
  revert from. induction count as [|count IH]; intros from H Hp.
  - lia.
  - cbn [holds_from] in H. apply andb_true_iff in H as [Hfrom Hrest].
    destruct (Z.eq_dec p from) as [->|Hne]; [exact Hfrom|].
    apply (IH (from + 1)); [exact Hrest|lia].
Qed.

Lemma compares_alike_upto_10000 :
  holds_from 0 (Z.to_nat 10001)
    (compares_with (map (fun t => (t, number_of_Z t)) thresholds)) = true.
Proof. vm_compute. reflexivity. Qed.

Lemma number_compare (p t : Z) :
  0 <= p <= 10000 -> In t thresholds ->
  PrimFloat.ltb (number_of_Z p) (number_of_Z t) = (p <? t)
  /\ PrimFloat.leb (number_of_Z p) (number_of_Z t) = (p <=? t).
Proof.
  intros Hp Ht.
  pose proof (holds_from_spec _ _ _ p compares_alike_upto_10000) as H.
  specialize (H ltac:(lia)). unfold compares_with in H.
  rewrite forallb_forall in H.
  specialize (H (t, number_of_Z t)
                (in_map (fun t => (t, number_of_Z t)) thresholds t Ht)).
  unfold compares_alike in H. cbn [fst snd] in H.
  apply andb_true_iff in H as [H1 H2].
  apply Bool.eqb_prop in H1, H2. split; assumption.
Qed.

(** For page counts up to 10000 the rules read on binary64 values give
    what the rules read on integers give. *)
Lemma getGutterWidth_number_agrees (p : Z) :
  0 <= p <= 10000 ->
  getGutterWidth_number (number_of_Z p) = getGutterWidth p.
Proof.
  intros Hp. unfold getGutterWidth_number, getGutterWidth.
  change 60%float with (number_of_Z 60).
  change 150%float with (number_of_Z 150).
  change 400%float with (number_of_Z 400).
  change 600%float with (number_of_Z 600).
  rewrite (proj1 (number_compare p 60 Hp ltac:(cbn; tauto))).
  rewrite !(fun t Ht => proj2 (number_compare p t Hp Ht)) by (cbn; tauto).
  reflexivity.
Qed.

Lemma calculateHardcoverSpineWidth_number_agrees (p : Z) :
  0 <= p <= 10000 ->
  calculateHardcoverSpineWidth_number (number_of_Z p)
  = calculateHardcoverSpineWidth p.
Proof.
  intros Hp.
  unfold calculateHardcoverSpineWidth_number, calculateHardcoverSpineWidth.
  change 24%float with (number_of_Z 24).
  change 84%float with (number_of_Z 84).
  change 140%float with (number_of_Z 140).
  change 168%float with (number_of_Z 168).
  change 194%float with (number_of_Z 194).
  change 222%float with (number_of_Z 222).
  change 250%float with (number_of_Z 250).
  change 278%float with (number_of_Z 278).
  change 306%float with (number_of_Z 306).
  change 334%float with (number_of_Z 334).
  change 360%float with (number_of_Z 360).
  change 388%float with (number_of_Z 388).
  change 416%float with (number_of_Z 416).
  change 444%float with (number_of_Z 444).
  change 472%float with (number_of_Z 472).
  change 500%float with (number_of_Z 500).
  change 528%float with (number_of_Z 528).
  change 556%float with (number_of_Z 556).
  change 582%float with (number_of_Z 582).
  rewrite (proj1 (number_compare p 24 Hp ltac:(cbn; tauto))).
  rewrite !(fun t Ht => proj2 (number_compare p t Hp Ht)) by (cbn; tauto).
  reflexivity.
Qed.

Example number_of_Z_samples :
  number_of_Z 0 = 0%float
  /\ number_of_Z 444 = 444%float
  /\ number_of_Z (-3) = (-3)%float
  /\ number_of_Z (2 ^ 53 + 1) = 9007199254740992%float.
Proof. repeat split. Qed.

(** ** Gutter width *)

(** C1: for a non-negative page count the gutter width is 0 below 60,
    0.125 from 60 to 150, 0.5 from 151 to 400, 0.625 from 401 to 600 and
    0.75 above 600; at exactly 60 it is 0.125. *)
Theorem getGutterWidth_brackets (pageCount : Z) :
  0 <= pageCount ->
  (pageCount < 60 -> getGutterWidth pageCount = 0%float)
  /\ (60 <= pageCount <= 150 -> getGutterWidth pageCount = 0.125%float)
  /\ (151 <= pageCount <= 400 -> getGutterWidth pageCount = 0.5%float)
  /\ (401 <= pageCount <= 600 -> getGutterWidth pageCount = 0.625%float)
  /\ (600 < pageCount -> getGutterWidth pageCount = 0.75%float)
  /\ getGutterWidth 60 = 0.125%float.
Proof.
  intros _. unfold getGutterWidth.
  destruct (Z.ltb_spec pageCount 60), (Z.leb_spec pageCount 150),
    (Z.leb_spec pageCount 400), (Z.leb_spec pageCount 600);
    repeat split; intros; try reflexivity; lia.
Qed.

Lemma getGutterWidth_brackets_witness :
  0 <= 150 /\ getGutterWidth 150 = 0.125%float.
Proof.
  split; [lia|].
  apply (getGutterWidth_brackets 150); lia.
Defined.

(** The values listed for the gutter rule. *)
Lemma getGutterWidth_samples :
  map getGutterWidth [0; 59; 60; 150; 151; 400; 401; 600; 601; 10000]
  = [0; 0; 0.125; 0.125; 0.5; 0.5; 0.625; 0.625; 0.75; 0.75]%float.
Proof. reflexivity. Qed.

(** ** Hardcover spine width *)

(** C2: the hardcover spine width is 0 below 24 pages and otherwise the
    width of the first bracket of the schedule whose upper bound is not
    exceeded, 1.625 above 582; in particular 0 at 23, 0.25 at 24 and 1.625
    at 600. *)
Theorem calculateHardcoverSpineWidth_table (pageCount : Z) :
  calculateHardcoverSpineWidth pageCount = hardcover_schedule pageCount
  /\ (pageCount < 24 -> calculateHardcoverSpineWidth pageCount = 0%float)
  /\ (24 <= pageCount ->
      calculateHardcoverSpineWidth pageCount
      = bracket_lookup hardcover_brackets 1.625%float pageCount)
  /\ (582 < pageCount ->
      calculateHardcoverSpineWidth pageCount = 1.625%float)
  /\ calculateHardcoverSpineWidth 23 = 0%float
  /\ calculateHardcoverSpineWidth 24 = 0.25%float
  /\ calculateHardcoverSpineWidth 600 = 1.625%float.
Proof.
  split; [apply hardcover_follows_schedule|].
  rewrite hardcover_follows_schedule. unfold hardcover_schedule.
  repeat split.
  - intros H. destruct (Z.ltb_spec pageCount 24); [reflexivity|lia].
  - intros H. destruct (Z.ltb_spec pageCount 24); [lia|reflexivity].
  - intros H. destruct (Z.ltb_spec pageCount 24); [lia|].
    unfold hardcover_brackets, upto. cbn [bracket_lookup].
    repeat match goal with
           | |- context [?a <=? ?b] =>
               destruct (Z.leb_spec a b); [lia|]
           end.
    reflexivity.
Qed.

Lemma calculateHardcoverSpineWidth_table_witness :
  582 < 583 /\ calculateHardcoverSpineWidth 583 = 1.625%float.
Proof.
  split; [lia|].
  apply (calculateHardcoverSpineWidth_table 583); lia.
Defined.

(** C9: the hardcover spine width never decreases as the page count
    grows. *)
Theorem calculateHardcoverSpineWidth_monotone (p q : Z) :
  0 <= p -> p <= q ->
  PrimFloat.leb (calculateHardcoverSpineWidth p)
                (calculateHardcoverSpineWidth q) = true.
Proof.
  intros _ Hpq.
  rewrite (hardcover_follows_schedule p), (hardcover_follows_schedule q).
  unfold hardcover_schedule.
  destruct (Z.ltb_spec p 24) as [Hp|Hp], (Z.ltb_spec q 24) as [Hq|Hq].
  - reflexivity.
  - apply (below_all_lookup 0%float). reflexivity.
  - lia.
  - apply bracket_lookup_mono; [reflexivity|exact Hpq].
Qed.

Lemma calculateHardcoverSpineWidth_monotone_witness :
  0 <= 84 /\ 84 <= 85
  /\ PrimFloat.leb (calculateHardcoverSpineWidth 84)
                   (calculateHardcoverSpineWidth 85) = true.
Proof.
  split; [lia|]. split; [lia|].
  apply (calculateHardcoverSpineWidth_monotone 84 85); lia.
Defined.

(** ** Paperback spine width *)

Example Q_of_float_samples :
  Qred <$> Q_of_float 1.5 = Some (3 # 2)
  /\ Qred <$> Q_of_float (-0.125) = Some (-1 # 8)
  /\ Qred <$> Q_of_float 444 = Some (444 # 1)
  /\ Q_of_float PrimFloat.infinity = None.
Proof.
  repeat split; vm_compute; reflexivity.
Qed.

Lemma paperback_near_exact_upto_10000 :
  holds_from 0 (Z.to_nat 10001)
    (fun p => near (calculatePaperbackSpineWidth p) (paperback_exact p))
  = true.
Proof. vm_compute. reflexivity. Qed.

Lemma paperback_near_exact (p : Z) :
  0 <= p <= 10000 ->
  near (calculatePaperbackSpineWidth p) (paperback_exact p) = true.
Proof.
  intros Hp.
  apply (holds_from_spec _ _ _ p paperback_near_exact_upto_10000). lia.
Qed.

(** C3: the paperback spine width is the page count divided by 444, plus
    0.06, computed as the source computes it and never clamped: 1.06 at
    444 pages and 0.06 at none; up to 10000 pages the result is within
    2^-45 of the rational [pageCount / 444 + 0.06]. *)
Theorem calculatePaperbackSpineWidth_formula (pageCount : Z) :
  0 <= pageCount ->
  calculatePaperbackSpineWidth pageCount
  = (number_of_Z pageCount / 444 + 0.06)%float
  /\ (pageCount <= 10000 ->
      near (calculatePaperbackSpineWidth pageCount)
           (paperback_exact pageCount) = true)
  /\ calculatePaperbackSpineWidth 444 = 1.06%float
  /\ calculatePaperbackSpineWidth 0 = 0.06%float.
Proof.
  intros Hp. split; [reflexivity|]. split.
  - intros Hle. apply paperback_near_exact. lia.
  - split; reflexivity.
Qed.

Lemma calculatePaperbackSpineWidth_formula_witness :
  0 <= 800
  /\ calculatePaperbackSpineWidth 800
     = (number_of_Z 800 / 444 + 0.06)%float.
Proof.
  split; [lia|].
  apply (calculatePaperbackSpineWidth_formula 800); lia.
Defined.

(** ** The catalog *)

(** C10: in the catalog every entry is stored under its own id; every
    entry that is not a spread has bleed dimensions that add 0.25 to the
    trim width and height; the spreads are [pocketbookSpread] and
    [digestSpread], both present, and theirs add 0.5 to the width (not
    0.25) and 0.25 to the height. *)
Theorem BOOK_FORMATS_bleed :
  (forall (key : string) (f : BookFormat),
     BOOK_FORMATS !! key = Some f ->
     id f = key
     /\ (isSpread f = false ->
         adds_to (noBleed f) 0.25 0.25 (withBleed f))
     /\ (isSpread f = true ->
         (key = "pocketbookSpread" \/ key = "digestSpread")
         /\ adds_to (noBleed f) 0.5 0.25 (withBleed f)
         /\ width (withBleed f) <> (width (noBleed f) + 0.25)%float))
  /\ (isSpread <$> BOOK_FORMATS !! "pocketbookSpread") = Some true
  /\ (isSpread <$> BOOK_FORMATS !! "digestSpread") = Some true.
Proof.
  split; [|split; reflexivity].
  intros key f H. each_entry H; cbn;
    (split; [reflexivity|]); split; intros Hs; try discriminate Hs;
    try (split; reflexivity).
  all: split; [auto|]; split; [split; reflexivity|].
  all: intros Heq; vm_compute in Heq; discriminate Heq.
Qed.

Lemma BOOK_FORMATS_bleed_witness :
  BOOK_FORMATS !! "a5"
  = Some (mkBookFormat "a5" "A5" (mkDimensions 5.83 8.27)
            (mkDimensions 6.08 8.52) false 0 None None)%float
  /\ adds_to (mkDimensions 5.83 8.27) 0.25 0.25 (mkDimensions 6.08 8.52).
Proof.
  split; [reflexivity|].
  apply (proj1 BOOK_FORMATS_bleed "a5"
           (mkBookFormat "a5" "A5" (mkDimensions 5.83 8.27)
              (mkDimensions 6.08 8.52) false 0 None None)%float);
    reflexivity.
Defined.

End types_facts.

(** * Properties of format resolution *)

Module Controls_facts.
Import types Controls Reference types_facts.

(** ** Catalog lookups *)

Lemma BOOK_FORMATS_get_Entry (key : string) (f : BookFormat) :
  BOOK_FORMATS_get key = Entry f <-> BOOK_FORMATS !! key = Some f.
Proof.
  unfold BOOK_FORMATS_get. destruct (BOOK_FORMATS !! key) as [g|].
  - split; intros H; inversion H; reflexivity.
  - split; intros H; [|discriminate H].
    destruct (bool_decide _); discriminate H.
Qed.

Lemma BOOK_FORMATS_get_Undefined (key : string) :
  BOOK_FORMATS_get key = Undefined
  <-> BOOK_FORMATS !! key = None /\ key ∉ Object_prototype.
Proof.
  unfold BOOK_FORMATS_get. destruct (BOOK_FORMATS !! key) as [g|].
  - split; [intros H; discriminate H|intros [H _]; discriminate H].
  - destruct (bool_decide_reflect (key ∈ Object_prototype)) as [Hin|Hout].
    + split; [intros H; discriminate H|intros [_ H]; contradiction].
    + split; [intros _; split; [reflexivity|exact Hout]|reflexivity].
Qed.

(** No catalog entry has the id of the custom format. *)
Lemma catalog_id_not_custom (key : string) (f : BookFormat) :
  BOOK_FORMATS !! key = Some f -> id f <> "custom".
Proof. intros H. each_entry H; cbn; discriminate. Qed.

(** ** Unknown format ids *)

(** C4, as amended: when the lookup of the chosen id gives [undefined]
    (the id is not in the catalog, nor a property that object literals
    inherit), [handleFormatChange] stops on a [TypeError] before it calls
    [onFormatChange]: nothing is substituted, and the only effect is the
    queued selection of the id with custom size switched off. *)
Theorem handleFormatChange_unknown_throws (formatId : string) (st : State) :
  BOOK_FORMATS !! formatId = None ->
  formatId ∉ Object_prototype ->
  thrown (handleFormatChange formatId st) = Some TypeError
  /\ calls (handleFormatChange formatId st) = []
  /\ next (handleFormatChange formatId st)
     = setUseCustomSize false (setSelectedFormat formatId st).
Proof.
  intros Hnone Hout. unfold handleFormatChange.
  replace (BOOK_FORMATS_get formatId) with Undefined
    by (symmetry; apply BOOK_FORMATS_get_Undefined; split; assumption).
  repeat split.
Qed.

Lemma handleFormatChange_unknown_throws_witness :
  BOOK_FORMATS !! "doesNotExist" = None
  /\ ("doesNotExist" ∉ Object_prototype)
  /\ thrown (handleFormatChange "doesNotExist" initialState)
     = Some TypeError
  /\ calls (handleFormatChange "doesNotExist" initialState) = [].
Proof.
  assert (Hnone : BOOK_FORMATS !! "doesNotExist" = None) by reflexivity.
  assert (Hout : "doesNotExist" ∉ Object_prototype)
    by (apply (bool_decide_eq_false_1 ("doesNotExist" ∈ Object_prototype));
        reflexivity).
  split; [exact Hnone|]. split; [exact Hout|].
  destruct (handleFormatChange_unknown_throws
              "doesNotExist" initialState Hnone Hout) as (Ht & Hc & _).
  split; [exact Ht|exact Hc].
Defined.

(** C4, as stated, fails: ["constructor"] is not in the catalog, yet the
    lookup finds the inherited constructor, nothing is thrown, and a format
    object holding only a gutter width is handed to [onFormatChange]. *)
Lemma handleFormatChange_inherited_id_is_silent :
  BOOK_FORMATS !! "constructor" = None
  /\ thrown (handleFormatChange "constructor" initialState) = None
  /\ emitted (handleFormatChange "constructor" initialState)
     = [Sparse (Some 0.125%float) None None].
Proof. repeat split. Qed.

(** ** Resolution from a catalog entry *)

Section CatalogSelected.
Variables (st : State) (entry : BookFormat).
Hypothesis Hcatalog : useCustomSize st = false.
Hypothesis Hentry : BOOK_FORMATS !! selectedFormat st = Some entry.

Let Hget : BOOK_FORMATS_get (selectedFormat st) = Entry entry.
Proof. apply BOOK_FORMATS_get_Entry, Hentry. Qed.

Lemma updateFormat_resolves :
  updateFormat st
  = [onFormatChange
       (Complete (resolve (bindingType st) (pageCount st) entry))].
Proof.
  unfold updateFormat, resolve. rewrite Hcatalog, Hget. cbn.
  destruct (types.isSpread entry); reflexivity.
Qed.

Lemma handlePageCountChange_resolves (parsed : option Z) :
  emitted (handlePageCountChange parsed st)
  = [Complete (resolve (bindingType st) (default 0 parsed) entry)].
Proof.
  unfold handlePageCountChange, resolve. rewrite Hcatalog, Hget. cbn.
  destruct (types.isSpread entry); reflexivity.
Qed.

Lemma handleToggleCustomSize_off_resolves :
  emitted (handleToggleCustomSize false st)
  = [Complete (resolve (bindingType st) (pageCount st) entry)].
Proof.
  unfold handleToggleCustomSize, resolve. rewrite Hget. cbn.
  destruct (types.isSpread entry); reflexivity.
Qed.
End CatalogSelected.

Lemma handleToggleSpread_on_resolves (st : State) (entry : BookFormat) :
  useCustomSize st = false ->
  BOOK_FORMATS !! (selectedFormat st +:+ "Spread") = Some entry ->
  types.isSpread entry = true ->
  emitted (handleToggleSpread true st)
  = [Complete (resolve (bindingType st) (pageCount st) entry)].
Proof.
  intros Hc He Hs. apply BOOK_FORMATS_get_Entry in He.
  unfold handleToggleSpread, resolve. rewrite Hc, He, Hs. reflexivity.
Qed.

(** Switching back hands over the catalog entry itself. *)
Lemma handleToggleSpread_off_raw (st : State) (entry : BookFormat) :
  useCustomSize st = false ->
  BOOK_FORMATS !! replace "Spread" "" (selectedFormat st) = Some entry ->
  emitted (handleToggleSpread false st) = [Complete entry].
Proof.
  intros Hc He. apply BOOK_FORMATS_get_Entry in He.
  unfold handleToggleSpread. rewrite Hc, He. reflexivity.
Qed.

(** Choosing a format overwrites the page count of spreads only. *)
Lemma handleFormatChange_entry (formatId : string) (st : State)
    (entry : BookFormat) :
  BOOK_FORMATS !! formatId = Some entry ->
  emitted (handleFormatChange formatId st)
  = [Complete
       (if types.isSpread entry
        then resolve (bindingType st) (pageCount st) entry
        else set_gutterWidth (getGutterWidth (pageCount st)) entry)].
Proof.
  intros He. apply BOOK_FORMATS_get_Entry in He.
  unfold handleFormatChange, resolve. rewrite He. cbn.
  destruct (types.isSpread entry); reflexivity.
Qed.

(** C5 fails on the way back from a spread: after choosing the pocketbook
    cover, setting 200 pages and unticking the spread box, the format handed
    over is the catalog's pocketbook entry as it stands, with gutter width 0
    and no page count, where the gutter rule gives 0.5 for 200 pages. *)
Theorem handleToggleSpread_back_skips_rules :
  let st := run [FormatChange "pocketbookSpread"; PageCountChange (Some 200)]
                initialState in
  exists entry : BookFormat,
    BOOK_FORMATS !! "pocketbook" = Some entry
    /\ useCustomSize st = false
    /\ selectedFormat st = "pocketbookSpread"
    /\ pageCount st = 200
    /\ emitted (handleToggleSpread false st) = [Complete entry]
    /\ entry <> resolve (bindingType st) (pageCount st) entry
    /\ gutterWidth entry = 0%float
    /\ getGutterWidth (pageCount st) = 0.5%float
    /\ types.pageCount entry = None
    /\ types.pageCount (resolve (bindingType st) (pageCount st) entry)
       = Some 200.
Proof.
  intros st. eexists. split; [reflexivity|].
  repeat split. intros H. apply (f_equal types.pageCount) in H.
  discriminate H.
Qed.

(** The same rule is skipped in part when a single-page format is chosen
    from the list: the gutter width follows the page count, the page count
    itself is not recorded. *)
Lemma handleFormatChange_single_page_drops_pageCount :
  let st := run [PageCountChange (Some 200)] initialState in
  exists f : BookFormat,
    emitted (handleFormatChange "usTrade" st) = [Complete f]
    /\ gutterWidth f = 0.5%float
    /\ types.pageCount f = None.
Proof. intros st. eexists. repeat split. Qed.

(** Changing the binding rewrites the spine width and the page count, and
    leaves the gutter width of the catalog entry in place. *)
Lemma handleBindingTypeChange_keeps_catalog_gutter :
  let st := run [FormatChange "pocketbookSpread"; PageCountChange (Some 200)]
                initialState in
  exists f : BookFormat,
    emitted (handleBindingTypeChange hardcover st) = [Complete f]
    /\ gutterWidth f = 0.125%float
    /\ getGutterWidth (pageCount st) = 0.5%float
    /\ types.pageCount f = Some 200
    /\ spineWidth f = Some 0.75%float.
Proof. intros st. eexists. repeat split. Qed.

(** ** Custom formats *)

Lemma customFormat_sizes (w h : float) (spreadFlag : bool) (n : Z) :
  noBleed (customFormat w h spreadFlag n) = mkDimensions w h
  /\ withBleed (customFormat w h spreadFlag n)
     = mkDimensions (w + 0.25) (h + 0.25)%float.
Proof. split; reflexivity. Qed.

Lemma catalog_entry_not_custom (key : string) (e0 : BookFormat) :
  BOOK_FORMATS_get key = Entry e0 -> id e0 <> "custom".
Proof.
  intros H. apply BOOK_FORMATS_get_Entry in H.
  exact (catalog_id_not_custom _ _ H).
Qed.

(** Every custom path writes the same literal: the trim size it is given
    and a bleed size 0.25 larger each way. *)
Lemma customResolved_sizes (b : BindingType) (w h : float)
    (spreadFlag : bool) (n : Z) :
  id (customResolved b w h spreadFlag n) = "custom"
  /\ noBleed (customResolved b w h spreadFlag n) = mkDimensions w h
  /\ withBleed (customResolved b w h spreadFlag n)
     = mkDimensions (w + 0.25) (h + 0.25)%float.
Proof. destruct spreadFlag; repeat split. Qed.

(** With custom size on, what each handler queues and calls, in full. The
    page count, spread and binding handlers build the format from the value
    they were just given; the width and height handlers store the value
    they were given and build the format from the size of the render. *)
Section CustomSelected.
Variable st : State.
Hypothesis Hcustom : useCustomSize st = true.

Lemma updateFormat_custom :
  updateFormat st
  = [onFormatChange
       (Complete (customResolved (bindingType st) (customWidth st)
                    (customHeight st) (isSpread st) (pageCount st)))].
Proof.
  unfold updateFormat, customResolved. rewrite Hcustom. cbn.
  destruct (isSpread st); reflexivity.
Qed.

Lemma handlePageCountChange_custom (parsed : option Z) :
  handlePageCountChange parsed st
  = done_with (setPageCount (default 0 parsed) st)
      [onPageCountChange (default 0 parsed);
       onFormatChange
         (Complete (customResolved (bindingType st) (customWidth st)
                      (customHeight st) (isSpread st) (default 0 parsed)))].
Proof.
  unfold handlePageCountChange, customResolved. rewrite Hcustom. cbn.
  destruct (isSpread st); reflexivity.
Qed.

Lemma handleToggleSpread_custom (checked : bool) :
  handleToggleSpread checked st
  = done_with (setIsSpread checked st)
      [onFormatChange
         (Complete (customResolved (bindingType st) (customWidth st)
                      (customHeight st) checked (pageCount st)))].
Proof.
  unfold handleToggleSpread, customResolved. rewrite Hcustom.
  destruct checked; reflexivity.
Qed.

Lemma handleBindingTypeChange_custom (type : BindingType) :
  handleBindingTypeChange type st
  = done_with (setBindingType type st)
      (if isSpread st
       then [onFormatChange
               (Complete (customResolved type (customWidth st)
                            (customHeight st) true (pageCount st)))]
       else []).
Proof.
  unfold handleBindingTypeChange, customResolved. rewrite Hcustom.
  destruct (isSpread st); reflexivity.
Qed.

Lemma handleCustomWidthChange_custom (parsed : float) :
  handleCustomWidthChange parsed st
  = done_with (setCustomWidth (or_zero parsed) st)
      [onFormatChange
         (Complete (customResolved (bindingType st) (customWidth st)
                      (customHeight st) (isSpread st) (pageCount st)))].
Proof.
  unfold handleCustomWidthChange. rewrite Hcustom, updateFormat_custom.
  reflexivity.
Qed.

Lemma handleCustomHeightChange_custom (parsed : float) :
  handleCustomHeightChange parsed st
  = done_with (setCustomHeight (or_zero parsed) st)
      [onFormatChange
         (Complete (customResolved (bindingType st) (customWidth st)
                      (customHeight st) (isSpread st) (pageCount st)))].
Proof.
  unfold handleCustomHeightChange. rewrite Hcustom, updateFormat_custom.
  reflexivity.
Qed.
End CustomSelected.

(** Switching custom size on with no size stored yet takes the trim size of
    the selected catalog format, stores it and hands the custom format of
    that size over. *)
Lemma handleToggleCustomSize_on_first (st : State) (entry : BookFormat) :
  customWidth st = 0%float ->
  customHeight st = 0%float ->
  BOOK_FORMATS !! selectedFormat st = Some entry ->
  handleToggleCustomSize true st
  = done_with
      (setCustomHeight (height (noBleed entry))
         (setCustomWidth (width (noBleed entry))
            (setUseCustomSize true st)))
      [onFormatChange
         (Complete (customResolved (bindingType st) (width (noBleed entry))
                      (height (noBleed entry)) (isSpread st)
                      (pageCount st)))].
Proof.
  intros Hw Hh He. apply BOOK_FORMATS_get_Entry in He.
  unfold handleToggleCustomSize, customResolved. rewrite Hw, Hh, He. cbn.
  destruct (isSpread st); reflexivity.
Qed.

(** On every path, a format with the custom id that is handed to
    [onFormatChange] has a bleed size 0.25 larger each way than its trim
    size. Its trim size is the size the component holds once the event is
    handled, unless the event is an edit of the width or the height: then
    it is the size the component held before. *)
Lemma custom_format_adds_bleed (e : Event) (st : State) (f : BookFormat) :
  Complete f ∈ emitted (handle e st) ->
  id f = "custom" ->
  adds_to (noBleed f) 0.25 0.25 (withBleed f)
  /\ noBleed f
     = storedSize (if size_edit e then st else next (handle e st)).
Proof.
  intros Hin Hid.
  destruct st as [sel pc sp bt cw ch ucs].
  destruct e; unfold storedSize, size_edit, handle, handleFormatChange,
    handlePageCountChange, handleToggleSpread, handleBindingTypeChange,
    handleCustomWidthChange, handleCustomHeightChange,
    handleToggleCustomSize, updateFormat in *;
    cbn in Hin |- *.
  all: repeat match type of Hin with
         | context [BOOK_FORMATS_get ?k] =>
             let Hget := fresh "Hget" in
             destruct (BOOK_FORMATS_get k) as [?e0| |] eqn:Hget;
             cbn in Hin |- *
         | context [if ?b then _ else _] =>
             destruct b eqn:?; cbn in Hin |- *
         end.
  all: repeat match type of Hin with
         | _ ∈ [] => apply elem_of_nil in Hin; destruct Hin
         | _ ∈ _ :: _ => apply elem_of_cons in Hin as [Hin|Hin]
         end.
  all: try discriminate Hin.
  (* formats copied from the catalog do not have the custom id *)
  all: try (inversion Hin; subst f; cbn in Hid;
            match goal with
            | H : BOOK_FORMATS_get _ = Entry _ |- _ =>
                exfalso; exact (catalog_entry_not_custom _ _ H Hid)
            end).
  (* custom formats *)
  all: inversion Hin; subst f; cbn; repeat split.
Qed.

(** C7 fails where the size is typed in. Custom size is switched on from
    the US Trade format, which stores 6 by 9 and hands the 6 by 9 custom
    format over; a width of 5 is typed, then a height of 8. The width
    handler stores 5 and hands over the format of 6 by 9 again, with bleed
    size 6.25 by 9.25; the height handler stores 8 and hands over the format
    of 5 by 9, with bleed size 5.25 by 9.25. The component then holds 5 by
    8, and the format of 5 by 8, with bleed size 5.25 by 8.25, is handed
    over by neither edit: it comes with a later event only, here the page
    count set again. *)
Theorem custom_size_edits_hand_over_previous_size :
  let o1 := handle (ToggleCustomSize true) initialState in
  let o2 := handle (CustomWidthChange 5) (next o1) in
  let o3 := handle (CustomHeightChange 8) (next o2) in
  let o4 := handle (PageCountChange (Some 60)) (next o3) in
  emitted o1 = [Complete (customFormat 6 9 false 60)]
  /\ storedSize (next o1) = mkDimensions 6 9
  /\ emitted o2 = [Complete (customFormat 6 9 false 60)]
  /\ storedSize (next o2) = mkDimensions 5 9
  /\ emitted o3 = [Complete (customFormat 5 9 false 60)]
  /\ storedSize (next o3) = mkDimensions 5 8
  /\ useCustomSize (next o3) = true
  /\ withBleed (customFormat 6 9 false 60) = mkDimensions 6.25 9.25
  /\ withBleed (customFormat 5 9 false 60) = mkDimensions 5.25 9.25
  /\ noBleed (customFormat 5 9 false 60) <> mkDimensions 5 8
  /\ (Complete (customFormat 5 8 false 60)
      ∉ emitted o1 ++ emitted o2 ++ emitted o3)
  /\ emitted o4 = [Complete (customFormat 5 8 false 60)]
  /\ noBleed (customFormat 5 8 false 60) = mkDimensions 5 8
  /\ withBleed (customFormat 5 8 false 60) = mkDimensions 5.25 8.25.
Proof.
  intros o1 o2 o3 o4.
  assert (Hne : noBleed (customFormat 5 9 false 60) <> mkDimensions 5 8).
  { intros H. apply (f_equal height) in H. cbn in H.
    apply (f_equal Prim2SF) in H. vm_compute in H. discriminate H. }
  assert (Hno : Complete (customFormat 5 8 false 60)
                ∉ emitted o1 ++ emitted o2 ++ emitted o3).
  { change (emitted o1 ++ emitted o2 ++ emitted o3)
      with [Complete (customFormat 6 9 false 60);
            Complete (customFormat 6 9 false 60);
            Complete (customFormat 5 9 false 60)].
    intros Hin.
    repeat (apply elem_of_cons in Hin as [Hin|Hin]);
      [| | |apply elem_of_nil in Hin; exact Hin].
    all: inversion Hin as [Heq];
      apply (f_equal Prim2SF) in Heq; vm_compute in Heq; discriminate Heq. }
  repeat split; try reflexivity; assumption.
Qed.

(** The width handler stores the new width and rebuilds the format in the
    same render, so the format it hands over still has the width of that
    render; the next event picks the stored one up. *)
Lemma handleCustomWidthChange_reads_rendered_width :
  let st := mkState "usTrade" 60 false paperback 6%float 9%float true in
  emitted (handleCustomWidthChange 5%float st)
  = [Complete (customFormat 6%float 9%float false 60)]
  /\ customWidth (next (handleCustomWidthChange 5%float st)) = 5%float
  /\ emitted (handle (PageCountChange (Some 60))
                     (next (handleCustomWidthChange 5%float st)))
     = [Complete (customFormat 5%float 9%float false 60)].
Proof. repeat split. Qed.

(** ** Toggling the spread with no companion in the catalog *)

Lemma handleToggleSpread_undefined_companion (checked : bool) (st : State) :
  useCustomSize st = false ->
  BOOK_FORMATS_get (companionId checked (selectedFormat st)) = Undefined ->
  handleToggleSpread checked st = done_with (setIsSpread checked st) [].
Proof.
  intros Hc Hu. unfold handleToggleSpread. rewrite Hc.
  destruct checked; cbn in Hu; rewrite Hu; reflexivity.
Qed.

(** C8, as amended: with a catalog format selected whose companion id is
    not in the catalog, toggling the spread box hands no format over (the
    current one stays, none is made up), selects nothing else and raises
    nothing; it does so silently, and the box's own flag is still
    recorded. *)
Theorem handleToggleSpread_missing_companion (checked : bool) (st : State) :
  useCustomSize st = false ->
  is_Some (BOOK_FORMATS !! selectedFormat st) ->
  BOOK_FORMATS !! companionId checked (selectedFormat st) = None ->
  calls (handleToggleSpread checked st) = []
  /\ thrown (handleToggleSpread checked st) = None
  /\ selectedFormat (next (handleToggleSpread checked st))
     = selectedFormat st
  /\ next (handleToggleSpread checked st) = setIsSpread checked st.
Proof.
  intros Hc [f Hf] Hnone.
  rewrite (handleToggleSpread_undefined_companion checked st Hc);
    [repeat split|].
  apply BOOK_FORMATS_get_Undefined. split; [exact Hnone|].
  destruct st as [sel pc sp bt cw ch ucs]. cbn in *.
  each_entry Hf; destruct checked; cbn;
    try (vm_compute in Hnone; discriminate Hnone);
    apply (bool_decide_eq_false_1 (_ ∈ Object_prototype)); reflexivity.
Qed.

(** Ticking the box on ["pocketbookSpread"] looks for
    ["pocketbookSpreadSpread"]. *)
Lemma handleToggleSpread_missing_companion_witness :
  let st := mkState "pocketbookSpread" 60 false paperback 0%float 0%float
                    false in
  useCustomSize st = false
  /\ is_Some (BOOK_FORMATS !! selectedFormat st)
  /\ BOOK_FORMATS !! companionId true (selectedFormat st) = None
  /\ calls (handleToggleSpread true st) = []
  /\ thrown (handleToggleSpread true st) = None.
Proof.
  intros st.
  assert (H1 : useCustomSize st = false) by reflexivity.
  assert (H2 : is_Some (BOOK_FORMATS !! selectedFormat st))
    by (eexists; reflexivity).
  assert (H3 : BOOK_FORMATS !! companionId true (selectedFormat st) = None)
    by reflexivity.
  destruct (handleToggleSpread_missing_companion true st H1 H2 H3)
    as (Hcalls & Hthrown & _).
  repeat split; assumption.
Defined.

(** C8, as stated, fails on the signal: with the pocketbook cover selected
    and the box unticked (a state reached through custom size), ticking the
    box finds no companion; the handler then calls nothing and raises
    nothing, so its caller is told nothing, and the toggle is not without
    effect either, since the component now holds the spread flag. *)
Lemma handleToggleSpread_missing_companion_is_silent :
  let st := run [FormatChange "pocketbookSpread"; ToggleCustomSize true;
                 ToggleSpread false; ToggleCustomSize false] initialState in
  useCustomSize st = false
  /\ selectedFormat st = "pocketbookSpread"
  /\ isSpread st = false
  /\ BOOK_FORMATS !! companionId true (selectedFormat st) = None
  /\ calls (handleToggleSpread true st) = []
  /\ thrown (handleToggleSpread true st) = None
  /\ isSpread (next (handleToggleSpread true st)) = true.
Proof. repeat split. Qed.

End Controls_facts.

(** * Properties of the guide geometry *)

Module CanvasEditor_facts.
Import types CanvasEditor Reference.

Local Open Scope float_scope.







End CanvasEditor_facts.

(** * Further properties of format resolution *)

Module Controls_more.
Import types Controls Reference Observations types_facts Controls_facts.

Lemma string_length_app (s t : string) :
  String.length (s +:+ t) = (String.length s + String.length t)%nat.
Proof.
  induction s as [|c s IH]; [reflexivity|].
  change (String c s +:+ t) with (String c (s +:+ t)).
  cbn [String.length]. rewrite IH. reflexivity.
Qed.

Lemma last6_Spread (s : string) : last6 (s +:+ "Spread") = "Spread".
Proof.
  induction s as [|c s IH]; [reflexivity|].
  change (String c s +:+ "Spread") with (String c (s +:+ "Spread")).
  cbn [last6]. rewrite string_length_app.
  destruct (Nat.ltb_spec (String.length s + String.length "Spread") 6)
    as [Hlt|_]; [cbn in Hlt; lia|exact IH].
Qed.

Lemma Spread_suffix_not_inherited (s : string) :
  BOOK_FORMATS_get (s +:+ "Spread") <> Inherited.
Proof.
  unfold BOOK_FORMATS_get.
  destruct (BOOK_FORMATS !! (s +:+ "Spread")); [discriminate|].
  destruct (bool_decide_reflect (s +:+ "Spread" ∈ Object_prototype))
    as [Hin|_]; [|discriminate].
  exfalso. unfold Object_prototype in Hin.
  repeat (apply elem_of_cons in Hin as [Hin|Hin];
          [apply (f_equal last6) in Hin; rewrite last6_Spread in Hin;
           discriminate Hin|]).
  apply elem_of_nil in Hin. exact Hin.
Qed.

Lemma replace_Spread_catalog (sel : string) (f : BookFormat) :
  BOOK_FORMATS !! sel = Some f ->
  exists g, BOOK_FORMATS_get (replace "Spread" "" sel) = Entry g.
Proof.
  intros Hf. each_entry Hf; eexists; reflexivity.
Qed.

Ltac settle_outcome sel_ok :=
  split; [reflexivity|];
  split; [cbn;
          repeat match goal with
                 | H : types.isSpread _ = _ |- _ => rewrite H
                 end;
          repeat constructor|sel_ok].

Lemma handle_keeps_catalog_selection (e : Event) (st : State) :
  is_Some (BOOK_FORMATS !! selectedFormat st) ->
  valid_event e ->
  thrown (handle e st) = None
  /\ Forall is_complete (emitted (handle e st))
  /\ is_Some (BOOK_FORMATS !! selectedFormat (next (handle e st))).
Proof.
  intros [f Hf] He.
  pose proof (proj2 (BOOK_FORMATS_get_Entry _ _) Hf) as Hget.
  assert (Hsome : forall k g, BOOK_FORMATS_get k = Entry g ->
                              is_Some (BOOK_FORMATS !! k)).
  { intros k g H. exists g. apply BOOK_FORMATS_get_Entry, H. }
  destruct e as [formatId|parsed|checked|type|parsed|parsed|checked];
    cbn [valid_event] in He.
  - destruct He as [g Hg].
    pose proof (proj2 (BOOK_FORMATS_get_Entry _ _) Hg) as Hgetg.
    unfold handle, handleFormatChange. rewrite Hgetg.
    destruct (types.isSpread g) eqn:Hs;
      settle_outcome ltac:(exists g; exact Hg).
  - unfold handle, handlePageCountChange. rewrite Hget.
    destruct (useCustomSize st), (isSpread st), (types.isSpread f) eqn:Hs;
      settle_outcome ltac:(exists f; exact Hf).
  - unfold handle, handleToggleSpread.
    destruct (useCustomSize st);
      [destruct checked; settle_outcome ltac:(exists f; exact Hf)|].
    destruct checked.
    + pose proof (Spread_suffix_not_inherited (selectedFormat st)) as Hni.
      destruct (BOOK_FORMATS_get (selectedFormat st +:+ "Spread"))
        as [g| |] eqn:Hg; [|contradiction|].
      * settle_outcome ltac:(apply (Hsome _ _ Hg)).
      * settle_outcome ltac:(exists f; exact Hf).
    + destruct (replace_Spread_catalog _ f Hf) as [g Hg]. rewrite Hg.
      settle_outcome ltac:(apply (Hsome _ _ Hg)).
  - unfold handle, handleBindingTypeChange. rewrite Hget.
    destruct (isSpread st), (useCustomSize st);
      settle_outcome ltac:(exists f; exact Hf).
  - unfold handle, handleCustomWidthChange, updateFormat. rewrite Hget.
    destruct (useCustomSize st), (isSpread st), (types.isSpread f) eqn:Hs;
      settle_outcome ltac:(exists f; exact Hf).
  - unfold handle, handleCustomHeightChange, updateFormat. rewrite Hget.
    destruct (useCustomSize st), (isSpread st), (types.isSpread f) eqn:Hs;
      settle_outcome ltac:(exists f; exact Hf).
  - unfold handle, handleToggleCustomSize. rewrite Hget.
    destruct checked, (PrimFloat.eqb (customWidth st) 0),
      (PrimFloat.eqb (customHeight st) 0), (isSpread st),
      (types.isSpread f) eqn:Hs;
      settle_outcome ltac:(exists f; exact Hf).
Qed.

Lemma outcomes_keep_catalog_selection (es : list Event) (st : State) :
  is_Some (BOOK_FORMATS !! selectedFormat st) ->
  Forall valid_event es ->
  Forall (fun o => thrown o = None
                   /\ Forall is_complete (emitted o)
                   /\ is_Some (BOOK_FORMATS !! selectedFormat (next o)))
         (outcomes es st).
Proof.
  intros Hsel Hes. revert st Hsel.
  induction Hes as [|e es He _ IH]; intros st Hsel; cbn [outcomes].
  - constructor.
  - pose proof (handle_keeps_catalog_selection e st Hsel He) as Hstep.
    constructor; [exact Hstep|]. apply IH, Hstep.
Qed.

(** X1: from the initial state, as long as every id chosen in the format
    list is one of the catalog, no handler ever raises, every format handed
    to [onFormatChange] is a complete one, and the selected id stays an id
    of the catalog. *)
Theorem run_never_throws (es : list Event) :
  Forall valid_event es ->
  Forall (fun o => thrown o = None
                   /\ Forall is_complete (emitted o)
                   /\ is_Some (BOOK_FORMATS !! selectedFormat (next o)))
         (outcomes es initialState).
Proof.
  apply outcomes_keep_catalog_selection. eexists; reflexivity.
Qed.

Lemma run_never_throws_witness :
  let es := [FormatChange "digestSpread"; PageCountChange None;
             ToggleSpread false; ToggleCustomSize true] in
  Forall valid_event es
  /\ Forall (fun o => thrown o = None
                      /\ Forall is_complete (emitted o)
                      /\ is_Some (BOOK_FORMATS !! selectedFormat (next o)))
            (outcomes es initialState).
Proof.
  intros es.
  assert (Hes : Forall valid_event es).
  { repeat constructor. eexists; reflexivity. }
  split; [exact Hes|exact (run_never_throws es Hes)].
Defined.

Lemma catalog_spine_iff_spread (key : string) (f : BookFormat) :
  BOOK_FORMATS_get key = Entry f ->
  (is_Some (spineWidth f) <-> types.isSpread f = true)
  /\ types.pageCount f = None.
Proof.
  intros H. apply BOOK_FORMATS_get_Entry in H.
  each_entry H; cbn; (split; [|reflexivity]); split;
    intros Hx; try discriminate Hx; try (eexists; reflexivity);
    destruct Hx as [x Hx]; discriminate Hx.
Qed.

Lemma Spread_key_is_spread (s : string) (f : BookFormat) :
  BOOK_FORMATS_get (s +:+ "Spread") = Entry f -> types.isSpread f = true.
Proof.
  intros H. apply BOOK_FORMATS_get_Entry, BOOK_FORMATS_lookup_Some in H.
  unfold BOOK_FORMATS_entries in H.
  repeat (apply elem_of_cons in H as [H|H];
          [inversion H as [[Hkey Hf]]; try reflexivity;
           apply (f_equal last6) in Hkey; rewrite last6_Spread in Hkey;
           discriminate Hkey|]).
  apply elem_of_nil in H. destruct H.
Qed.

Ltac handler_cases Hin :=
  unfold handle, handleFormatChange, handlePageCountChange,
    handleToggleSpread, handleBindingTypeChange, handleCustomWidthChange,
    handleCustomHeightChange, handleToggleCustomSize, updateFormat in Hin;
  cbn in Hin;
  repeat match type of Hin with
         | context [BOOK_FORMATS_get ?k] =>
             let Hget := fresh "Hget" in
             destruct (BOOK_FORMATS_get k) as [?e0| |] eqn:Hget; cbn in Hin
         | context [if ?b then _ else _] => destruct b eqn:?; cbn in Hin
         end;
  repeat match type of Hin with
         | _ ∈ [] => apply elem_of_nil in Hin; destruct Hin
         | _ ∈ _ :: _ => apply elem_of_cons in Hin as [Hin|Hin]
         end;
  try discriminate Hin.

(** X2: a format handed to [onFormatChange] carries a spine width exactly
    when it is a spread, for every event but a change of binding on a
    catalog format. *)
Theorem spine_width_iff_spread (e : Event) (st : State) (f : BookFormat) :
  Complete f ∈ emitted (handle e st) ->
  binding_change e = false \/ useCustomSize st = true ->
  (is_Some (spineWidth f) <-> types.isSpread f = true).
Proof.
  intros Hin Hok.
  destruct st as [sel pc sp bt cw ch ucs].
  destruct e; cbn in Hok;
    try (destruct Hok as [Hok|Hok]; [discriminate Hok|subst ucs]);
    handler_cases Hin.
  all: repeat match goal with
         | H : BOOK_FORMATS_get (_ +:+ "Spread") = Entry _ |- _ =>
             let Hs := fresh "Hs" in
             pose proof (Spread_key_is_spread _ _ H) as Hs;
             apply catalog_spine_iff_spread in H as [? ?]
         | H : BOOK_FORMATS_get _ = Entry _ |- _ =>
             apply catalog_spine_iff_spread in H as [? ?]
         end.
  all: inversion Hin; subst f; cbn in *.
  all: try (split; intros; try reflexivity; try (eexists; reflexivity);
            congruence).
  all: try tauto.
  all: subst; split; [intros [x Hx]; discriminate Hx|intros Hx; discriminate Hx].
Qed.

Lemma spine_width_iff_spread_witness :
  let st := mkState "usTrade" 60 false paperback 5%float 8%float true in
  let f := set_spineWidth (spineWidthFor paperback 60)
             (customFormat 5%float 8%float true 60) in
  Complete f ∈ emitted (handle (ToggleSpread true) st)
  /\ (is_Some (spineWidth f) <-> types.isSpread f = true).
Proof.
  intros st f.
  assert (Hin : Complete f ∈ emitted (handle (ToggleSpread true) st))
    by (apply elem_of_cons; left; reflexivity).
  split; [exact Hin|].
  exact (spine_width_iff_spread (ToggleSpread true) st f Hin
           (or_introl eq_refl)).
Defined.

(** The exception: with the spread flag set through custom size and a
    single-page catalog format selected again, changing the binding hands
    over a single-page format that carries a spine width. *)
Lemma binding_change_puts_spine_on_single_page :
  let st := run [ToggleCustomSize true; ToggleSpread true;
                 ToggleCustomSize false] initialState in
  exists f : BookFormat,
    emitted (handle (BindingTypeChange hardcover) st) = [Complete f]
    /\ id f = "usTrade"
    /\ types.isSpread f = false
    /\ spineWidth f = Some 0.25%float.
Proof. intros st. eexists. repeat split. Qed.

(** X3: whenever a format handed to [onFormatChange] records a page count,
    its gutter width is the one the gutter rule gives for that count, for
    every event but a change of binding on a catalog format. *)
Theorem gutter_follows_recorded_page_count (e : Event) (st : State)
    (f : BookFormat) (n : Z) :
  Complete f ∈ emitted (handle e st) ->
  binding_change e = false \/ useCustomSize st = true ->
  types.pageCount f = Some n ->
  gutterWidth f = getGutterWidth n.
Proof.
  intros Hin Hok Hn.
  destruct st as [sel pc sp bt cw ch ucs].
  destruct e; cbn in Hok;
    try (destruct Hok as [Hok|Hok]; [discriminate Hok|subst ucs]);
    handler_cases Hin.
  all: repeat match goal with
         | H : BOOK_FORMATS_get _ = Entry _ |- _ =>
             apply catalog_spine_iff_spread in H as [_ ?]
         end.
  all: inversion Hin; subst f; cbn in Hn; try congruence.
  all: inversion Hn; subst n; reflexivity.
Qed.

Lemma gutter_follows_recorded_page_count_witness :
  let st := mkState "digestSpread" 60 true hardcover 0%float 0%float false in
  let f := resolve hardcover 200 (mkBookFormat "digestSpread" "Digest Cover"
             (mkDimensions 11 8.5) (mkDimensions 11.5 8.75)
             true 0.125 (Some 0%float) None) in
  Complete f ∈ emitted (handle (PageCountChange (Some 200)) st)
  /\ types.pageCount f = Some 200
  /\ gutterWidth f = 0.5%float.
Proof.
  intros st f.
  assert (Hin : Complete f
                ∈ emitted (handle (PageCountChange (Some 200)) st))
    by (apply elem_of_cons; left; reflexivity).
  assert (Hn : types.pageCount f = Some 200) by reflexivity.
  split; [exact Hin|]. split; [exact Hn|].
  exact (gutter_follows_recorded_page_count _ st f 200 Hin
           (or_introl eq_refl) Hn).
Defined.

Lemma or_zero_not_nan (x : float) : PrimFloat.is_nan (or_zero x) = false.
Proof.
  unfold or_zero. destruct (PrimFloat.is_nan x) eqn:Hx; cbn [orb].
  - reflexivity.
  - destruct (PrimFloat.eqb x 0); [reflexivity|exact Hx].
Qed.

Lemma catalog_sizes_not_nan (key : string) (f : BookFormat) :
  BOOK_FORMATS_get key = Entry f ->
  PrimFloat.is_nan (width (noBleed f)) = false
  /\ PrimFloat.is_nan (height (noBleed f)) = false.
Proof.
  intros H. apply BOOK_FORMATS_get_Entry in H.
  each_entry H; split; reflexivity.
Qed.

Lemma handle_keeps_size_a_number (e : Event) (st : State) :
  size_is_number st -> size_is_number (next (handle e st)).
Proof.
  unfold size_is_number. intros [Hw Hh].
  destruct e; unfold handle, handleFormatChange, handlePageCountChange,
    handleToggleSpread, handleBindingTypeChange, handleCustomWidthChange,
    handleCustomHeightChange, handleToggleCustomSize.
  all: repeat match goal with
         | |- context [BOOK_FORMATS_get ?k] =>
             let Hget := fresh "Hget" in
             destruct (BOOK_FORMATS_get k) as [?e0| |] eqn:Hget
         | |- context [if ?b then _ else _] => destruct b eqn:?
         end; cbn.
  all: try (split; assumption).
  all: try (split; [apply or_zero_not_nan|assumption]).
  all: try (split; [assumption|apply or_zero_not_nan]).
  all: eapply catalog_sizes_not_nan; eassumption.
Qed.

(** X4: whatever the events, the custom width and height kept in the state
    are never [NaN]: a field that does not parse is stored as 0, and
    switching custom size on stores the trim size of a catalog format. *)
Theorem custom_size_never_nan (es : list Event) :
  size_is_number (run es initialState).
Proof.
  unfold run.
  assert (H : size_is_number initialState) by (split; reflexivity).
  revert H. generalize initialState.
  induction es as [|e es IH]; intros st H; cbn [fold_left]; [exact H|].
  apply IH, handle_keeps_size_a_number, H.
Qed.

Lemma replace_after_append (s : string) :
  no_capital_S s = true -> replace "Spread" "" (s +:+ "Spread") = s.
Proof.
  induction s as [|c s IH]; [reflexivity|].
  cbn [no_capital_S]. intros H. apply andb_true_iff in H as [Hc Hs].
  change (String c s +:+ "Spread") with (String c (s +:+ "Spread")).
  cbn [replace].
  assert (Hp : String.prefix "Spread" (String c (s +:+ "Spread")) = false).
  { cbn [String.prefix].
    destruct (Ascii.ascii_dec _ c) as [Heq|_]; [|reflexivity].
    subst c. discriminate Hc. }
  rewrite Hp, (IH Hs). reflexivity.
Qed.

(** X5: with a catalog format selected whose id has no capital S and whose
    cover is in the catalog, ticking the spread box selects the cover, and
    unticking it selects the format again and hands over its catalog
    entry. *)
Theorem toggle_spread_round_trip (st : State) (single cover : BookFormat) :
  useCustomSize st = false ->
  no_capital_S (selectedFormat st) = true ->
  BOOK_FORMATS !! selectedFormat st = Some single ->
  BOOK_FORMATS !! (selectedFormat st +:+ "Spread") = Some cover ->
  selectedFormat (next (handleToggleSpread true st))
  = selectedFormat st +:+ "Spread"
  /\ selectedFormat
       (next (handleToggleSpread false (next (handleToggleSpread true st))))
     = selectedFormat st
  /\ emitted
       (handleToggleSpread false (next (handleToggleSpread true st)))
     = [Complete single].
Proof.
  intros Hc Hs Hsingle Hcover.
  apply BOOK_FORMATS_get_Entry in Hsingle, Hcover.
  assert (Hon : next (handleToggleSpread true st)
                = setSelectedFormat (selectedFormat st +:+ "Spread")
                    (setIsSpread true st)).
  { unfold handleToggleSpread. rewrite Hc, Hcover. reflexivity. }
  rewrite Hon. split; [reflexivity|].
  unfold handleToggleSpread at 1 2.
  cbn [useCustomSize selectedFormat setSelectedFormat setIsSpread].
  rewrite Hc, (replace_after_append _ Hs), Hsingle.
  split; reflexivity.
Qed.

Lemma toggle_spread_round_trip_witness :
  let st := setSelectedFormat "digest" initialState in
  useCustomSize st = false
  /\ no_capital_S (selectedFormat st) = true
  /\ selectedFormat (next (handleToggleSpread true st)) = "digestSpread"
  /\ selectedFormat
       (next (handleToggleSpread false (next (handleToggleSpread true st))))
     = "digest".
Proof.
  intros st.
  assert (H1 : useCustomSize st = false) by reflexivity.
  assert (H2 : no_capital_S (selectedFormat st) = true) by reflexivity.
  split; [exact H1|]. split; [exact H2|].
  destruct (toggle_spread_round_trip st _ _ H1 H2 eq_refl eq_refl)
    as (Hon & Hback & _).
  split; [exact Hon|exact Hback].
Defined.

End Controls_more.

(** * Properties of the display toggles *)

Module Display_facts.
Import Display Observations.

Lemma display_step_keeps (tv : Toggles * Shown) (e : Event) :
  shown_as_stored tv -> shown_as_stored (display_step tv e).
Proof.
  destruct tv as [[b g s p] v]. unfold shown_as_stored, display_step.
  cbn [fst snd previewMode showBleed showGutter showSafety].
  intros ->. destruct e as [c|c|c|c], p; cbn; try reflexivity.
  all: destruct c; reflexivity.
Qed.

(** X6: whatever is clicked, what the parent was last told to show is what
    the three checkboxes store when preview mode is off, and nothing when it
    is on; leaving preview mode brings the stored choices back. *)
Theorem display_shows_what_is_stored (es : list Event) :
  shown_as_stored (display_run es).
Proof.
  unfold display_run.
  assert (H : shown_as_stored (initialToggles, mkShown true true true))
    by reflexivity.
  revert H. generalize (initialToggles, mkShown true true true).
  induction es as [|e es IH]; intros tv H; cbn [fold_left]; [exact H|].
  apply IH, display_step_keeps, H.
Qed.

(** This rests on the checkboxes being disabled in preview mode: their
    handlers themselves would tell the parent to show a guide. *)
Lemma preview_needs_disabled_boxes :
  let t := fst (handle (TogglePreviewMode true) initialToggles) in
  enabled (ToggleBleed true) t = false
  /\ snd (handle (ToggleBleed true) t) = [onToggleBleed true].
Proof. split; reflexivity. Qed.
End Display_facts.

(** * Further properties of the guide geometry *)

Module CanvasEditor_more.
Import types CanvasEditor Reference Observations.
Local Open Scope float_scope.

Lemma drawBleedMargins_app canvas f dpi :
  drawBleedMargins canvas f dpi = canvas ++ drawBleedMargins [] f dpi.
Proof. reflexivity. Qed.

Lemma drawSafetyMargins_app canvas f dpi :
  drawSafetyMargins canvas f dpi = canvas ++ drawSafetyMargins [] f dpi.
Proof. reflexivity. Qed.

Lemma drawGutterArea_app canvas f dpi :
  drawGutterArea canvas f dpi = canvas ++ drawGutterArea [] f dpi.
Proof.
  unfold drawGutterArea. destruct (isSpread f); cbn [negb];
    [|rewrite app_nil_r; reflexivity].
  destruct (0 <? gutterWidth f * dpi), (spineWidth f) as [s|];
    try destruct (negb (PrimFloat.is_nan s || PrimFloat.eqb s 0) && (0 <? s))%bool;
    cbn [app]; rewrite <- ?app_assoc; reflexivity.
Qed.

Lemma drawGutterArea_guides f dpi :
  Forall (fun o => data_type_of o = "guideline") (drawGutterArea [] f dpi).
Proof.
  unfold drawGutterArea. destruct (isSpread f); cbn [negb]; [|constructor].
  destruct (0 <? gutterWidth f * dpi), (spineWidth f) as [s|];
    try destruct (negb (PrimFloat.is_nan s || PrimFloat.eqb s 0) && (0 <? s))%bool;
    cbn [app]; repeat constructor.
Qed.

Lemma drawGuides_shape canvas f a b g :
  drawGuides canvas f a b g
  = filter user_object canvas ++ drawGuides [] f a b g.
Proof.
  unfold drawGuides.
  change (filter _ canvas) with (filter user_object canvas).
  change (filter _ []) with (@nil FabricObject).
  destruct a, b, g;
    rewrite ?drawGutterArea_app with (canvas := _ ++ _);
    rewrite ?(drawGutterArea_app (drawSafetyMargins _ _ _));
    rewrite ?(drawGutterArea_app (drawBleedMargins _ _ _));
    rewrite ?(drawGutterArea_app (filter _ _));
    rewrite ?(drawSafetyMargins_app (drawBleedMargins _ _ _));
    rewrite ?(drawSafetyMargins_app (filter _ _));
    rewrite ?(drawBleedMargins_app (filter _ _));
    rewrite ?app_nil_l, ?app_nil_r, <- ?app_assoc; try reflexivity.
Qed.

Lemma drawGuides_adds_guides f a b g :
  Forall (fun o => data_type_of o = "guideline") (drawGuides [] f a b g).
Proof.
  unfold drawGuides. change (filter _ []) with (@nil FabricObject).
  assert (Hgutter : forall c,
            Forall (fun o => data_type_of o = "guideline") c ->
            Forall (fun o => data_type_of o = "guideline")
                   (drawGutterArea c f 72)).
  { intros c Hc. rewrite drawGutterArea_app. apply Forall_app.
    split; [exact Hc|apply drawGutterArea_guides]. }
  destruct a, b, g; try apply Hgutter; repeat constructor.
Qed.

(** X8: at 72 dots per inch the trim line drawn for a catalog format starts
    9 units in, and has the height of the trim size; its width is that of
    the trim size for a single page, and 18 units (a quarter inch) more for
    the two cover spreads, whose bleed width adds half an inch. *)
Theorem trim_line_of_catalog_formats (key : string) (f : BookFormat) :
  BOOK_FORMATS !! key = Some f ->
  drawBleedMargins [] f 72
  = [Rect 9 9
          (if isSpread f then width (noBleed f) * 72 + 18
           else width (noBleed f) * 72)
          (height (noBleed f) * 72)
          "guideline" "trim"].
Proof.
  intros H. types_facts.each_entry H; reflexivity.
Qed.

Lemma trim_line_of_catalog_formats_witness :
  BOOK_FORMATS !! "usTrade"
  = Some (mkBookFormat "usTrade" "US Trade" (mkDimensions 6 9)
            (mkDimensions 6.25 9.25) false 0 None None)
  /\ drawBleedMargins []
       (mkBookFormat "usTrade" "US Trade" (mkDimensions 6 9)
          (mkDimensions 6.25 9.25) false 0 None None) 72
     = [Rect 9 9 432 648 "guideline" "trim"].
Proof.
  assert (H : BOOK_FORMATS !! "usTrade"
              = Some (mkBookFormat "usTrade" "US Trade" (mkDimensions 6 9)
                        (mkDimensions 6.25 9.25) false 0 None None))
    by reflexivity.
  split; [exact H|].
  rewrite (trim_line_of_catalog_formats _ _ H). reflexivity.
Defined.
End CanvasEditor_more.

(** * The redraw of guides, grid and rulers *)

Module CanvasRedraw_facts.
Import types CanvasEditor CanvasRedraw Observations CanvasEditor_more.
Local Open Scope float_scope.

(** ** Drawing steps that only add *)

Lemma appends_add (added : list CanvasObject) :
  appends (fun canvas => Some (canvas ++ added)).
Proof. intros canvas. reflexivity. Qed.

Lemma appends_bind draw1 draw2 :
  appends draw1 -> appends draw2 ->
  appends (fun canvas => draw1 canvas ≫= draw2).
Proof.
  intros H1 H2 canvas. rewrite (H1 canvas).
  destruct (draw1 []) as [a1|]; [|reflexivity]. cbn.
  rewrite (H2 (canvas ++ a1)), (H2 a1).
  destruct (draw2 []) as [a2|]; [|reflexivity]. cbn.
  rewrite app_assoc. reflexivity.
Qed.

Lemma appends_if (b : bool) draw1 draw2 :
  appends draw1 -> appends draw2 ->
  appends (fun canvas => if b then draw1 canvas else draw2 canvas).
Proof. intros H1 H2. destruct b; assumption. Qed.

Lemma appends_skip : appends Some.
Proof. intros canvas. cbn. rewrite app_nil_r. reflexivity. Qed.

Lemma for_loop_appends fuel i limit step body :
  appends (for_loop fuel i limit step body).
Proof.
  revert i. induction fuel as [|fuel IH]; intros i canvas; [reflexivity|].
  cbn. destruct (i <=? limit).
  - rewrite (IH _ (canvas ++ body i)), (IH _ (body i)).
    destruct (for_loop fuel (i + step) limit step body []) as [a|];
      [|reflexivity].
    cbn. rewrite app_assoc. reflexivity.
  - cbn. rewrite app_nil_r. reflexivity.
Qed.

Lemma draws_guides_add (added : list CanvasObject) :
  Forall guide_or_grid added ->
  draws_guides (fun canvas => Some (canvas ++ added)).
Proof. intros H a Ha. inversion Ha; subst. exact H. Qed.

Lemma appends_after (added : list CanvasObject) draw :
  appends draw -> appends (fun canvas => draw (canvas ++ added)).
Proof.
  intros H canvas. rewrite (H (canvas ++ added)), (H ([] ++ added)).
  destruct (draw []) as [a|]; [|reflexivity].
  cbn. rewrite app_assoc. reflexivity.
Qed.

Lemma draws_guides_after (added : list CanvasObject) draw :
  appends draw -> Forall guide_or_grid added -> draws_guides draw ->
  draws_guides (fun canvas => draw (canvas ++ added)).
Proof.
  intros Happ Hadded H a Ha. rewrite (Happ ([] ++ added)) in Ha.
  destruct (draw []) as [a0|] eqn:E; [|discriminate Ha].
  inversion Ha; subst. apply Forall_app. split; [exact Hadded|].
  apply H. exact E.
Qed.

Lemma draws_guides_skip : draws_guides Some.
Proof. intros a Ha. inversion Ha; subst. constructor. Qed.

Lemma draws_guides_bind draw1 draw2 :
  appends draw2 -> draws_guides draw1 -> draws_guides draw2 ->
  draws_guides (fun canvas => draw1 canvas ≫= draw2).
Proof.
  intros Happ H1 H2 added Hadded.
  destruct (draw1 []) as [a1|] eqn:E1; [|discriminate Hadded].
  cbn in Hadded. rewrite (Happ a1) in Hadded.
  destruct (draw2 []) as [a2|] eqn:E2; [|discriminate Hadded].
  inversion Hadded; subst.
  apply Forall_app. split; [apply H1|apply H2]; assumption.
Qed.

Lemma draws_guides_if (b : bool) draw1 draw2 :
  draws_guides draw1 -> draws_guides draw2 ->
  draws_guides (fun canvas => if b then draw1 canvas else draw2 canvas).
Proof. intros H1 H2. destruct b; assumption. Qed.

Lemma for_loop_draws_guides fuel i limit step body :
  (forall j, Forall guide_or_grid (body j)) ->
  draws_guides (for_loop fuel i limit step body).
Proof.
  intros Hbody. revert i.
  induction fuel as [|fuel IH]; intros i added Hadded; [discriminate Hadded|].
  cbn in Hadded. destruct (i <=? limit).
  - rewrite (for_loop_appends _ _ _ _ _ (body i)) in Hadded.
    destruct (for_loop fuel (i + step) limit step body []) as [a|] eqn:E;
      [|discriminate Hadded].
    inversion Hadded; subst. apply Forall_app. split; [apply Hbody|].
    exact (IH _ _ E).
  - inversion Hadded; subst. constructor.
Qed.

(** The loop returns exactly when its counter passes the limit within the
    rounds allowed, whatever it draws. *)
Lemma for_loop_returns fuel i limit step body canvas :
  is_Some (for_loop fuel i limit step body canvas)
  <-> loop_ends fuel i limit step = true.
Proof.
  revert i canvas. induction fuel as [|fuel IH]; intros i canvas; cbn.
  - split; [intros [x Hx]; discriminate Hx|intros H; discriminate H].
  - destruct (i <=? limit); [apply IH|].
    split; [reflexivity|eexists; reflexivity].
Qed.

(** ** Guides and kept objects *)

Lemma filter_kept_guides (l : list CanvasObject) :
  Forall guide_or_grid l -> filter kept l = [].
Proof.
  induction 1 as [|o l Ho _ IH]; [reflexivity|].
  rewrite filter_cons_False; [exact IH|].
  intros [Hg Hr]. destruct Ho as [Ho|Ho]; [apply Hg|apply Hr]; exact Ho.
Qed.

Lemma filter_kept_idemp (l : list CanvasObject) :
  filter kept (filter kept l) = filter kept l.
Proof.
  induction l as [|o l IH]; [reflexivity|].
  destruct (decide (kept o)) as [Ho|Ho].
  - rewrite (filter_cons_True kept _ _ Ho).
    rewrite (filter_cons_True kept _ _ Ho). rewrite IH. reflexivity.
  - rewrite (filter_cons_False kept _ _ Ho). exact IH.
Qed.

Lemma shapes_are_guides (l : list FabricObject) :
  Forall (fun o => data_type_of o = "guideline") l ->
  Forall guide_or_grid (Shape <$> l).
Proof.
  intros H. apply Forall_fmap. eapply Forall_impl; [exact H|].
  intros o Ho. left. cbn. rewrite Ho. reflexivity.
Qed.

(** Among the objects placed by the other components, the redraw keeps
    exactly those the export does not take for a guide. *)
Lemma kept_placed_iff_not_guide (obj : fabric.Object) :
  kept (Placed obj) <-> ExportPanel.is_guide obj = false.
Proof.
  unfold kept, ExportPanel.is_guide. cbn.
  destruct (fabric.data obj) as [d|]; cbn.
  - rewrite orb_false_iff, !bool_decide_eq_false. reflexivity.
  - split; [reflexivity|]. intros _. split; discriminate.
Qed.

Section Redraw.
Variable remainder : float -> float -> float.
Variable Math_round : float -> float.
Variable toString : float -> string.
Variable gridSize : float.

Lemma drawGrid_appends fuel width height dpi :
  appends (fun canvas => drawGrid gridSize fuel canvas width height dpi).
Proof.
  unfold drawGrid.
  apply (appends_bind (for_loop _ _ _ _ _) (for_loop _ _ _ _ _));
    apply for_loop_appends.
Qed.

Lemma drawGrid_draws_guides fuel width height dpi :
  draws_guides (fun canvas => drawGrid gridSize fuel canvas width height dpi).
Proof.
  unfold drawGrid.
  apply (draws_guides_bind (for_loop _ _ _ _ _) (for_loop _ _ _ _ _)).
  - apply for_loop_appends.
  - apply for_loop_draws_guides. intros j.
    constructor; [right; reflexivity|constructor].
  - apply for_loop_draws_guides. intros j.
    constructor; [right; reflexivity|constructor].
Qed.

Lemma drawRulers_appends fuel width height dpi :
  appends (fun canvas => drawRulers remainder Math_round toString fuel
                                     canvas width height dpi).
Proof.
  unfold drawRulers. cbv zeta.
  apply (appends_bind
           (fun canvas => for_loop _ _ _ _ _ ((canvas ++ [_]) ++ [_]))
           (for_loop _ _ _ _ _)); [|apply for_loop_appends].
  apply (appends_after [_] (fun canvas => for_loop _ _ _ _ _ (canvas ++ [_]))).
  apply (appends_after [_]). apply for_loop_appends.
Qed.

Lemma drawRulers_draws_guides fuel width height dpi :
  draws_guides (fun canvas => drawRulers remainder Math_round toString fuel
                                canvas width height dpi).
Proof.
  unfold drawRulers. cbv zeta.
  assert (Hguide : forall o : FabricObject, data_type_of o = "guideline" ->
                   guide_or_grid (Shape o))
    by (intros o Ho; left; cbn; rewrite Ho; reflexivity).
  assert (Hlabel : forall t l u s n, guide_or_grid (Text t l u s n))
    by (intros; left; reflexivity).
  apply (draws_guides_bind
           (fun canvas => for_loop _ _ _ _ _ ((canvas ++ [_]) ++ [_]))
           (for_loop _ _ _ _ _)).
  - apply for_loop_appends.
  - apply (draws_guides_after [_]
             (fun canvas => for_loop _ _ _ _ _ (canvas ++ [_]))).
    + apply (appends_after [_]). apply for_loop_appends.
    + repeat constructor.
    + apply (draws_guides_after [_]).
      * apply for_loop_appends.
      * repeat constructor.
      * apply for_loop_draws_guides. intros j.
        constructor; [apply Hguide; reflexivity|].
        destruct (remainder j (1 * dpi) <? 0.001);
          [constructor; [apply Hlabel|constructor]|constructor].
  - apply for_loop_draws_guides. intros j.
    constructor; [apply Hguide; reflexivity|].
    destruct (remainder j (1 * dpi) <? 0.001);
      [constructor; [apply Hlabel|constructor]|constructor].
Qed.

(** The redraw clears the canvas of guides and grid, then runs drawing
    steps that only add: the guides of [drawGuides], the grid, the
    rulers. *)
Lemma redraw_unfold fuel canvas f a b g showGrid showRulers :
  redraw remainder Math_round toString gridSize fuel canvas f a b g
         showGrid showRulers
  = (if showGrid
     then drawGrid gridSize fuel
            (filter kept canvas ++ (Shape <$> drawGuides [] f a b g))
            (width (withBleed f) * 72) (height (withBleed f) * 72) 72
     else Some (filter kept canvas ++ (Shape <$> drawGuides [] f a b g)))
    ≫= (fun canvas =>
          if showRulers
          then drawRulers remainder Math_round toString fuel canvas
                 (width (withBleed f) * 72) (height (withBleed f) * 72) 72
          else Some canvas).
Proof.
  unfold redraw. cbv zeta.
  change (filter _ canvas) with (filter kept canvas).
  replace (Shape <$> drawGuides [] f a b g)
    with ((if a then Shape <$> drawBleedMargins [] f 72 else [])
          ++ (if b then Shape <$> drawSafetyMargins [] f 72 else [])
          ++ (if g then Shape <$> drawGutterArea [] f 72 else [])).
  - destruct a, b, g;
      rewrite ?app_nil_l, ?app_nil_r, <- ?app_assoc; reflexivity.
  - unfold drawGuides. change (filter _ []) with (@nil FabricObject).
    destruct a, b, g;
      rewrite ?(drawGutterArea_app (drawSafetyMargins _ _ _)),
        ?(drawGutterArea_app (drawBleedMargins _ _ _)),
        ?(drawSafetyMargins_app (drawBleedMargins _ _ _)),
        ?fmap_app, ?app_nil_l, ?app_nil_r, <- ?app_assoc; reflexivity.
Qed.

Lemma redraw_steps_append fuel f a b g (showGrid showRulers : bool) :
  appends (fun canvas =>
    (if showGrid
     then drawGrid gridSize fuel
            (canvas ++ (Shape <$> drawGuides [] f a b g))
            (width (withBleed f) * 72) (height (withBleed f) * 72) 72
     else Some (canvas ++ (Shape <$> drawGuides [] f a b g)))
    ≫= (fun canvas =>
          if showRulers
          then drawRulers remainder Math_round toString fuel canvas
                 (width (withBleed f) * 72) (height (withBleed f) * 72) 72
          else Some canvas)).
Proof.
  apply (appends_bind
           (fun canvas => if showGrid then drawGrid _ _ (canvas ++ _) _ _ _
                          else Some (canvas ++ _))
           (fun canvas => if showRulers then drawRulers _ _ _ _ canvas _ _ _
                          else Some canvas)).
  - apply (appends_if showGrid
             (fun canvas => drawGrid _ _ (canvas ++ _) _ _ _)
             (fun canvas => Some (canvas ++ _))).
    + apply (appends_after _ (fun canvas => drawGrid _ _ canvas _ _ _)).
      apply drawGrid_appends.
    + apply appends_add.
  - apply (appends_if showRulers
             (fun canvas => drawRulers _ _ _ _ canvas _ _ _) Some).
    + apply drawRulers_appends.
    + apply appends_skip.
Qed.

Lemma redraw_steps_draw_guides fuel f a b g (showGrid showRulers : bool) :
  draws_guides (fun canvas =>
    (if showGrid
     then drawGrid gridSize fuel
            (canvas ++ (Shape <$> drawGuides [] f a b g))
            (width (withBleed f) * 72) (height (withBleed f) * 72) 72
     else Some (canvas ++ (Shape <$> drawGuides [] f a b g)))
    ≫= (fun canvas =>
          if showRulers
          then drawRulers remainder Math_round toString fuel canvas
                 (width (withBleed f) * 72) (height (withBleed f) * 72) 72
          else Some canvas)).
Proof.
  pose proof (shapes_are_guides _ (drawGuides_adds_guides f a b g)) as Hg.
  apply (draws_guides_bind
           (fun canvas => if showGrid then drawGrid _ _ (canvas ++ _) _ _ _
                          else Some (canvas ++ _))
           (fun canvas => if showRulers then drawRulers _ _ _ _ canvas _ _ _
                          else Some canvas)).
  - apply (appends_if showRulers
             (fun canvas => drawRulers _ _ _ _ canvas _ _ _) Some).
    + apply drawRulers_appends.
    + apply appends_skip.
  - apply (draws_guides_if showGrid
             (fun canvas => drawGrid _ _ (canvas ++ _) _ _ _)
             (fun canvas => Some (canvas ++ _))).
    + apply (draws_guides_after _ (fun canvas => drawGrid _ _ canvas _ _ _)).
      * apply drawGrid_appends.
      * exact Hg.
      * apply drawGrid_draws_guides.
    + apply draws_guides_add. exact Hg.
  - apply (draws_guides_if showRulers
             (fun canvas => drawRulers _ _ _ _ canvas _ _ _) Some).
    + apply drawRulers_draws_guides.
    + apply draws_guides_skip.
Qed.

(** What a redraw leaves on the canvas: the kept objects, then what it
    draws on an empty canvas. *)
Lemma redraw_shape fuel canvas f a b g showGrid showRulers :
  redraw remainder Math_round toString gridSize fuel canvas f a b g
         showGrid showRulers
  = (fun added => filter kept canvas ++ added)
    <$> redraw remainder Math_round toString gridSize fuel [] f a b g
               showGrid showRulers.
Proof.
  rewrite !redraw_unfold. change (filter kept []) with (@nil CanvasObject).
  apply (redraw_steps_append fuel f a b g showGrid showRulers
           (filter kept canvas)).
Qed.

Lemma redraw_adds_guides fuel f a b g showGrid showRulers added :
  redraw remainder Math_round toString gridSize fuel [] f a b g
         showGrid showRulers = Some added ->
  Forall guide_or_grid added.
Proof.
  rewrite redraw_unfold. change (filter kept []) with (@nil CanvasObject).
  apply (redraw_steps_draw_guides fuel f a b g showGrid showRulers).
Qed.

(** X7: a redraw that returns leaves the objects that are neither guides
    nor grid as they were and in their order; it puts after them only
    objects tagged as guide or as grid; and run again on its own result it
    returns that result: guides, grid lines and ruler marks never pile
    up. *)
Theorem redraw_keeps_user_objects (fuel : nat)
    (canvas canvas' : list CanvasObject) (f : BookFormat)
    (showBleed showSafety showGutter showGrid showRulers : bool) :
  redraw remainder Math_round toString gridSize fuel canvas f
         showBleed showSafety showGutter showGrid showRulers
  = Some canvas' ->
  filter kept canvas' = filter kept canvas
  /\ redraw remainder Math_round toString gridSize fuel canvas' f
            showBleed showSafety showGutter showGrid showRulers
     = Some canvas'
  /\ exists added,
       canvas' = filter kept canvas ++ added
       /\ Forall guide_or_grid added.
Proof.
  intros H. rewrite redraw_shape in H.
  destruct (redraw remainder Math_round toString gridSize fuel [] f
              showBleed showSafety showGutter showGrid showRulers)
    as [added|] eqn:E; [|discriminate H].
  inversion H as [Hc]. clear H.
  pose proof (redraw_adds_guides _ _ _ _ _ _ _ _ E) as Hg.
  assert (H1 : filter kept (filter kept canvas ++ added)
               = filter kept canvas).
  { rewrite filter_app, filter_kept_idemp, (filter_kept_guides _ Hg),
      app_nil_r. reflexivity. }
  split; [exact H1|]. split.
  - rewrite redraw_shape, E, H1. reflexivity.
  - exists added. split; [reflexivity|exact Hg].
Qed.

(** ** When the redraw returns *)

Lemma drawGrid_returns fuel canvas width height dpi :
  loop_ends fuel 0 width (gridSize * dpi) = true ->
  loop_ends fuel 0 height (gridSize * dpi) = true ->
  is_Some (drawGrid gridSize fuel canvas width height dpi).
Proof.
  intros Hw Hh. unfold drawGrid. cbv zeta.
  destruct (proj2 (for_loop_returns fuel 0 width (gridSize * dpi)
                     (fun i => [GridLine i 0 i height]) canvas) Hw)
    as [c Hc].
  rewrite Hc. cbn. apply for_loop_returns. exact Hh.
Qed.

Lemma drawRulers_returns fuel canvas width height dpi :
  loop_ends fuel 0 width (0.25 * dpi) = true ->
  loop_ends fuel 0 height (0.25 * dpi) = true ->
  is_Some (drawRulers remainder Math_round toString fuel canvas
             width height dpi).
Proof.
  intros Hw Hh. unfold drawRulers. cbv zeta.
  match goal with
  | |- is_Some (for_loop ?n ?i ?l ?s ?body ?c ≫= _) =>
      destruct (proj2 (for_loop_returns n i l s body c) Hw) as [c' Hc]
  end.
  rewrite Hc. cbn. apply for_loop_returns. exact Hh.
Qed.

Lemma redraw_returns fuel canvas f a b g showGrid showRulers :
  loop_ends fuel 0 (width (withBleed f) * 72) (gridSize * 72) = true ->
  loop_ends fuel 0 (height (withBleed f) * 72) (gridSize * 72) = true ->
  loop_ends fuel 0 (width (withBleed f) * 72) (0.25 * 72) = true ->
  loop_ends fuel 0 (height (withBleed f) * 72) (0.25 * 72) = true ->
  is_Some (redraw remainder Math_round toString gridSize fuel canvas f
             a b g showGrid showRulers).
Proof.
  intros Hgw Hgh Hrw Hrh. rewrite redraw_unfold.
  assert (Hrulers : forall c,
            is_Some (if showRulers
                     then drawRulers remainder Math_round toString fuel c
                            (width (withBleed f) * 72)
                            (height (withBleed f) * 72) 72
                     else Some c)).
  { intros c. destruct showRulers; [|eexists; reflexivity].
    apply drawRulers_returns; assumption. }
  destruct showGrid; [|apply Hrulers].
  destruct (drawGrid_returns fuel
              (filter kept canvas ++ (Shape <$> drawGuides [] f a b g))
              _ _ 72 Hgw Hgh) as [c Hc].
  rewrite Hc. apply Hrulers.
Qed.

End Redraw.

(** For every format of the catalog and every grid size the toolbar
    offers, 200 rounds are enough for each loop: the redraw returns,
    whatever is on the canvas and whatever is switched on. *)
Lemma redraw_returns_on_catalog remainder Math_round toString
    (gridSize : float) (key : string) (f : BookFormat)
    (canvas : list CanvasObject) (a b g showGrid showRulers : bool) :
  BOOK_FORMATS !! key = Some f ->
  gridSize ∈ grid_sizes ->
  is_Some (redraw remainder Math_round toString gridSize 200 canvas f
             a b g showGrid showRulers).
Proof.
  intros Hf Hsize.
  unfold grid_sizes in Hsize.
  repeat (apply elem_of_cons in Hsize as [Hsize|Hsize]);
    [| | | |apply elem_of_nil in Hsize; destruct Hsize].
  all: rewrite Hsize; clear Hsize.
  all: types_facts.each_entry Hf; apply redraw_returns;
    vm_compute; reflexivity.
Qed.

(** With a grid size of 0 the counter of the first grid loop stays at 0:
    the loop never ends. *)
Lemma loop_with_zero_step_never_ends (fuel : nat) (limit : float) :
  (0 <=? limit) = true -> loop_ends fuel 0 limit 0 = false.
Proof.
  intros H. induction fuel as [|fuel IH]; [reflexivity|].
  cbn. rewrite H. exact IH.
Qed.

Lemma drawGrid_zero_size_never_returns (fuel : nat)
    (canvas : list CanvasObject) (width height : float) :
  (0 <=? width) = true ->
  drawGrid 0 fuel canvas width height 72 = None.
Proof.
  intros H. unfold drawGrid. cbv zeta. change (0 * 72) with 0.
  destruct (for_loop fuel 0 width 0 (fun i => [GridLine i 0 i height])
              canvas) as [c|] eqn:E; [|reflexivity].
  assert (Hends : loop_ends fuel 0 width 0 = true)
    by (eapply for_loop_returns; eexists; exact E).
  rewrite (loop_with_zero_step_never_ends fuel width H) in Hends.
  discriminate Hends.
Qed.

(** The guide part of the redraw, with grid and rulers off, is
    [drawGuides]. *)
Lemma redraw_guide_part remainder Math_round toString gridSize fuel
    (canvas : list FabricObject) f a b g :
  redraw remainder Math_round toString gridSize fuel (Shape <$> canvas) f
         a b g false false
  = Some (Shape <$> drawGuides canvas f a b g).
Proof.
  rewrite redraw_unfold. cbn.
  rewrite (drawGuides_shape canvas), fmap_app. do 2 f_equal.
  induction canvas as [|o canvas IH]; [reflexivity|].
  cbn [fmap list_fmap].
  assert (Hsame : kept (Shape o) <-> user_object o).
  { unfold kept, user_object. cbn.
    split; intros [Hg Hr]; split; intros H; [apply Hg|apply Hr| |];
      try (rewrite H; reflexivity).
    - apply Hg. inversion H. reflexivity.
    - apply Hr. inversion H. reflexivity. }
  destruct (decide (user_object o)) as [Ho|Ho].
  - rewrite (filter_cons_True kept (Shape o) _ (proj2 Hsame Ho)),
      (filter_cons_True user_object _ _ Ho).
    cbn [fmap list_fmap]. f_equal. exact IH.
  - rewrite (filter_cons_False kept (Shape o) _
               (fun H => Ho (proj1 Hsame H))),
      (filter_cons_False user_object _ _ Ho).
    exact IH.
Qed.

(** The US Trade format with the trim line and a one-inch grid: a picture
    on the canvas stays first, the old trim line and the old grid line are
    replaced, and a second redraw changes nothing (the rulers are off, so
    the operations left open are not used). *)
Lemma redraw_keeps_user_objects_witness :
  let usTrade := mkBookFormat "usTrade" "US Trade" (mkDimensions 6 9)
                   (mkDimensions 6.25 9.25) false 0 None None in
  let picture :=
    Placed (fabric.mkObject 36 36 0 144 144 true
              (Some (fabric.mkObjectData None (Some "picture") None None))) in
  let canvas := [Shape (Rect 9 9 432 648 "guideline" "trim"); picture;
                 GridLine 0 0 0 648] in
  let canvas' :=
    [picture; Shape (Rect 9 9 432 648 "guideline" "trim")]
    ++ ((fun i => GridLine i 0 i 666) <$> [0; 72; 144; 216; 288; 360; 432])
    ++ ((fun i => GridLine 0 i 450 i)
          <$> [0; 72; 144; 216; 288; 360; 432; 504; 576; 648]) in
  let draw c :=
    redraw (fun x _ => x) (fun x => x) (fun _ => EmptyString) 1 20 c usTrade
           true false false true false in
  draw canvas = Some canvas'
  /\ filter kept canvas' = [picture]
  /\ draw canvas' = Some canvas'.
Proof.
  intros usTrade picture canvas canvas' draw.
  assert (H : draw canvas = Some canvas') by reflexivity.
  destruct (redraw_keeps_user_objects
              (fun x _ => x) (fun x => x) (fun _ => EmptyString) 1 20
              canvas canvas' usTrade true false false true false H)
    as (Hkept & Hagain & _).
  split; [exact H|]. split; [exact Hkept|exact Hagain].
Defined.

End CanvasRedraw_facts.

(** * Properties of zooming *)

Module CanvasZoom_facts.
Import CanvasZoom Observations.
Local Open Scope float_scope.

(** ** Comparisons of binary64 values *)

Lemma SFcompare_antisym (a b : spec_float) (c : comparison) :
  SFcompare a b = Some c -> SFcompare b a = Some (CompOpp c).
Proof.
  destruct a as [sa|sa| |sa ma ea], b as [sb|sb| |sb mb eb]; cbn;
    try discriminate;
    try (destruct sa); try (destruct sb);
    intros H; inversion H; subst; try reflexivity; clear H.
  all: assert (Hz : IntDef.Z.compare eb ea
                    = CompOpp (IntDef.Z.compare ea eb))
         by exact (Z.compare_antisym ea eb);
       assert (Hp : PosDef.Pos.compare_cont Eq mb ma
                    = CompOpp (PosDef.Pos.compare_cont Eq ma mb))
         by exact (eq_sym (Pos.compare_cont_antisym ma mb Eq));
       rewrite Hz, Hp;
       destruct (IntDef.Z.compare ea eb),
         (PosDef.Pos.compare_cont Eq ma mb); reflexivity.
Qed.

Lemma ltb_leb (x y : float) : (x <? y) = true -> (x <=? y) = true.
Proof.
  rewrite FloatAxioms.ltb_spec, FloatAxioms.leb_spec. unfold SFltb, SFleb.
  destruct (SFcompare _ _) as [[| |]|]; intros H;
    try discriminate H; reflexivity.
Qed.

Lemma not_nan_compare (x y : float) :
  PrimFloat.is_nan x = false -> PrimFloat.is_nan y = false ->
  exists c, SFcompare (Prim2SF x) (Prim2SF y) = Some c.
Proof.
  unfold PrimFloat.is_nan. rewrite !FloatAxioms.eqb_spec. unfold SFeqb.
  destruct (Prim2SF x), (Prim2SF y); cbn; intros Hx Hy;
    try discriminate; eexists; reflexivity.
Qed.

Lemma not_ltb_leb (x y : float) :
  PrimFloat.is_nan x = false -> PrimFloat.is_nan y = false ->
  (x <? y) = false -> (y <=? x) = true.
Proof.
  intros Hx Hy. destruct (not_nan_compare x y Hx Hy) as [c Hc].
  rewrite FloatAxioms.ltb_spec, FloatAxioms.leb_spec. unfold SFltb, SFleb.
  rewrite (SFcompare_antisym _ _ _ Hc), Hc.
  destruct c; intros H; try discriminate H; reflexivity.
Qed.

(** ** The wheel *)

Lemma Math_max_tenth (z : float) :
  Math_max [0.1; z]
  = if PrimFloat.is_nan z then PrimFloat.nan
    else if 0.1 <? z then z else 0.1.
Proof.
  change (Math_max [0.1; z]) with (Math_max_from 0.1 [z]).
  cbn [Math_max_from].
  change (is_negative_zero 0.1) with false.
  rewrite andb_false_r. reflexivity.
Qed.

Lemma Math_min_ten (m : float) :
  PrimFloat.is_nan m = false ->
  Math_min [m; 10]
  = if m <? PrimFloat.infinity then (if 10 <? m then 10 else m) else 10.
Proof.
  intros Hm. unfold Math_min. cbn [Math_min_from]. rewrite Hm.
  change (PrimFloat.is_nan 10) with false.
  change (is_negative_zero 10) with false.
  change (is_positive_zero PrimFloat.infinity) with false.
  rewrite andb_false_r. cbn [andb].
  destruct (m <? PrimFloat.infinity); reflexivity.
Qed.

Lemma clamp_of_number (z : float) :
  PrimFloat.is_nan z = false ->
  (0.1 <=? clamp z) = true /\ (clamp z <=? 10) = true.
Proof.
  intros Hz. unfold clamp. rewrite Math_max_tenth, Hz.
  destruct (0.1 <? z) eqn:Hlow.
  - rewrite (Math_min_ten z Hz).
    destruct (z <? PrimFloat.infinity); [|split; reflexivity].
    destruct (10 <? z) eqn:Hhigh; [split; reflexivity|].
    split; [apply ltb_leb, Hlow|].
    apply not_ltb_leb; [reflexivity|exact Hz|exact Hhigh].
  - split; reflexivity.
Qed.

Lemma clamp_of_nan (z : float) :
  PrimFloat.is_nan z = true -> clamp z = PrimFloat.nan.
Proof.
  intros Hz. unfold clamp. rewrite Math_max_tenth, Hz. reflexivity.
Qed.

(** X9: the zoom the wheel handler sets lies between 0.1 and 10, unless the
    zoom times the wheel factor (0.9 when scrolling down, 1.1 otherwise)
    is [NaN], in which case the zoom set is [NaN]. *)
Theorem handleMouseWheel_zoom_bounds (zoom deltaY newZoom : float) :
  handleMouseWheel true zoom deltaY = Some newZoom ->
  (newZoom = PrimFloat.nan
   /\ PrimFloat.is_nan (zoom * (if 0 <? deltaY then 0.9 else 1.1)) = true)
  \/ ((0.1 <=? newZoom) = true /\ (newZoom <=? 10) = true).
Proof.
  unfold handleMouseWheel. cbn [negb]. intros H. inversion H as [Hn]. clear H.
  fold (clamp (if 0 <? deltaY then zoom * 0.9 else zoom * 1.1)).
  replace (if 0 <? deltaY then zoom * 0.9 else zoom * 1.1)
    with (zoom * (if 0 <? deltaY then 0.9 else 1.1))
    by (destruct (0 <? deltaY); reflexivity).
  destruct (PrimFloat.is_nan (zoom * (if 0 <? deltaY then 0.9 else 1.1)))
    eqn:Hnan.
  - left. split; [apply clamp_of_nan, Hnan|reflexivity].
  - right. apply clamp_of_number, Hnan.
Qed.

(** Scrolling up at a zoom of 10 leaves it at 10. *)
Lemma handleMouseWheel_zoom_bounds_witness :
  handleMouseWheel true 10 (-1) = Some 10
  /\ (0.1 <=? 10) = true /\ (10 <=? 10) = true.
Proof.
  assert (H : handleMouseWheel true 10 (-1) = Some 10) by reflexivity.
  split; [exact H|].
  destruct (handleMouseWheel_zoom_bounds 10 (-1) 10 H) as [[Hnan _]|Hb];
    [discriminate Hnan|exact Hb].
Defined.

(** The zoom buttons have no such bounds. *)
Lemma zoom_buttons_are_not_clamped :
  handleZoomIn true 10 = Some 12
  /\ handleZoomOut true 0.1 = Some (0.1 * 0.8)
  /\ (0.1 * 0.8 <? 0.1) = true.
Proof. repeat split. Qed.

End CanvasZoom_facts.

(** * Properties of the export *)

Module ExportPanel_facts.
Import template ExportPanel Observations.

Lemma forEach_from_acc index objs acc :
  forEach_from index objs acc = acc ++ forEach_from index objs [].
Proof.
  revert index acc. induction objs as [|obj rest IH]; intros index acc.
  - cbn. rewrite app_nil_r. reflexivity.
  - cbn [forEach_from].
    destruct (is_guide obj); [apply IH|].
    destruct (fabric.data obj) as [d|]; [|apply IH].
    rewrite (IH (S index) (acc ++ _)), (IH (S index) ([] ++ _)).
    rewrite app_nil_l, app_assoc. reflexivity.
Qed.

Lemma forEach_from_cons index obj rest :
  forEach_from index (obj :: rest) []
  = (if is_guide obj then []
     else match fabric.data obj with
          | Some d => [element_at index obj d]
          | None => []
          end) ++ forEach_from (S index) rest [].
Proof.
  cbn [forEach_from]. rewrite forEach_from_acc.
  destruct (is_guide obj); [reflexivity|].
  destruct (fabric.data obj); reflexivity.
Qed.

Lemma forEach_from_elements index objs e :
  e ∈ forEach_from index objs [] ->
  exists i obj d, (index <= i)%nat /\ e = element_at i obj d.
Proof.
  revert index. induction objs as [|obj rest IH]; intros index He.
  - apply elem_of_nil in He. destruct He.
  - rewrite forEach_from_cons in He. apply elem_of_app in He as [He|He].
    + destruct (is_guide obj); [apply elem_of_nil in He; destruct He|].
      destruct (fabric.data obj) as [d|];
        [|apply elem_of_nil in He; destruct He].
      apply list_elem_of_singleton in He. exists index, obj, d.
      split; [lia|exact He].
    + destruct (IH _ He) as (i & o & d & Hi & ->).
      exists i, o, d. split; [lia|reflexivity].
Qed.

(** X10: the ids of the exported elements are pairwise distinct. *)
Theorem exported_ids_distinct (canvas : option (list fabric.Object)) :
  NoDup (map id (getElementsFromCanvas canvas)).
Proof.
  destruct canvas as [objs|]; [|constructor]. cbn [getElementsFromCanvas].
  generalize 0%nat as index. induction objs as [|obj rest IH]; intros index.
  - constructor.
  - rewrite forEach_from_cons, map_app. apply NoDup_app. split; [|split].
    + destruct (is_guide obj); [constructor|].
      destruct (fabric.data obj); repeat constructor. apply not_elem_of_nil.
    + intros x Hx Hrest.
      apply list_elem_of_fmap in Hrest as (e & -> & He).
      destruct (forEach_from_elements _ _ _ He) as (i & o & d & Hi & ->).
      destruct (is_guide obj); [apply elem_of_nil in Hx; destruct Hx|].
      destruct (fabric.data obj) as [d0|];
        [|apply elem_of_nil in Hx; destruct Hx].
      apply list_elem_of_singleton in Hx. cbn in Hx.
      injection Hx as Hx. change (pretty i = pretty index) in Hx.
      apply (inj pretty) in Hx. lia.
    + apply IH.
Qed.





Lemma number_or_not_nan (x d : float) :
  PrimFloat.is_nan d = false -> PrimFloat.is_nan (number_or x d) = false.
Proof.
  intros Hd. unfold number_or.
  destruct (PrimFloat.is_nan x) eqn:Hx; cbn [orb]; [exact Hd|].
  destruct (PrimFloat.eqb x 0); [exact Hd|exact Hx].
Qed.

Lemma number_or_nonzero (x d : float) :
  nonzero_number d -> nonzero_number (number_or x d).
Proof.
  intros [Hd Hz]. unfold number_or, nonzero_number.
  destruct (PrimFloat.is_nan x) eqn:Hx; cbn [orb]; [split; assumption|].
  destruct (PrimFloat.eqb x 0) eqn:H0; split; assumption.
Qed.

Lemma element_at_well_formed index obj d :
  well_formed (element_at index obj d).
Proof.
  unfold well_formed, element_at.
  cbn [type isPlaceholder name content src x y rotation width height].
  repeat split; try (apply number_or_not_nan; reflexivity);
    try (apply number_or_nonzero; split; reflexivity).
  - destruct (truthy _); [reflexivity|discriminate].
  - destruct (truthy _); [reflexivity|discriminate].
  - destruct (truthy _); discriminate.
  - destruct (fabric.name d) as [[|c s]|]; discriminate.
Qed.

(** X12: every exported element is an image or a placeholder, a placeholder
    exactly when its flag says so, with a name that is not empty, no
    content and no source; its position and rotation are never [NaN], and
    its width and height are never [NaN] nor 0 (an object without size is
    written as 100 wide or high). *)
Theorem exported_elements_well_formed
    (canvas : option (list fabric.Object)) (e : TemplateElement) :
  e ∈ getElementsFromCanvas canvas -> well_formed e.
Proof.
  destruct canvas as [objs|]; cbn [getElementsFromCanvas]; intros He.
  - destruct (forEach_from_elements _ _ _ He) as (i & obj & d & _ & ->).
    apply element_at_well_formed.
  - apply elem_of_nil in He. destruct He.
Qed.

Lemma exported_elements_well_formed_witness :
  let flat :=
    fabric.mkObject PrimFloat.nan 20 0 0 300 true
      (Some (fabric.mkObjectData None None (Some true) None)) in
  let e := element_at 0 flat
             (fabric.mkObjectData None None (Some true) None) in
  e ∈ getElementsFromCanvas (Some [flat])
  /\ name e = "Element 0"
  /\ x e = 0%float
  /\ width e = 100%float
  /\ well_formed e.
Proof.
  intros flat e.
  assert (H : e ∈ getElementsFromCanvas (Some [flat]))
    by (apply elem_of_cons; left; reflexivity).
  split; [exact H|]. repeat (split; [reflexivity|]).
  exact (exported_elements_well_formed (Some [flat]) e H).
Defined.

Lemma is_guide_set_visible v obj :
  is_guide (fabric.set_visible v obj) = is_guide obj.
Proof. reflexivity. Qed.

Lemma restore_hidden (objs : list fabric.Object) :
  restore (hide_guides objs)
          (map fabric.visible (filter (fun obj => is_guide obj = true) objs))
  = objs.
Proof.
  induction objs as [|obj rest IH]; [reflexivity|].
  cbn [hide_guides map]. fold (hide_guides rest).
  destruct (is_guide obj) eqn:Hg.
  - rewrite (filter_cons_True (fun o => is_guide o = true) obj rest Hg).
    cbn [map restore].
    rewrite is_guide_set_visible, Hg, IH. destruct obj; reflexivity.
  - rewrite (filter_cons_False (fun o => is_guide o = true) obj rest)
      by (rewrite Hg; discriminate).
    cbn [restore]. rewrite Hg, IH. reflexivity.
Qed.

(** X13: the image export leaves the canvas as it found it: every guide
    is invisible while the picture is taken, the other objects are not
    touched, and afterwards every object is visible or not as before. *)
Theorem handleExportPDF_round_trip (objs : list fabric.Object)
    (c : Capture) :
  handleExportPDF (Some objs) = Some c ->
  restored c = objs
  /\ Forall (fun obj => is_guide obj = true -> fabric.visible obj = false)
            (captured c)
  /\ filter (fun obj => is_guide obj = false) (captured c)
     = filter (fun obj => is_guide obj = false) objs.
Proof.
  unfold handleExportPDF. intros H. inversion H as [Hc]. clear H Hc.
  cbn [restored captured]. split; [apply restore_hidden|]. split.
  - unfold hide_guides. apply Forall_map, Forall_forall. intros obj _.
    destruct (is_guide obj) eqn:Hg; [reflexivity|].
    intros H. rewrite Hg in H. discriminate H.
  - induction objs as [|obj rest IH]; [reflexivity|].
    cbn [hide_guides map]. fold (hide_guides rest).
    destruct (is_guide obj) eqn:Hg.
    + rewrite (filter_cons_False (fun o => is_guide o = false)
                 (fabric.set_visible false obj))
        by (rewrite is_guide_set_visible, Hg; discriminate).
      rewrite (filter_cons_False (fun o => is_guide o = false) obj)
        by (rewrite Hg; discriminate).
      exact IH.
    + rewrite !(filter_cons_True (fun o => is_guide o = false) obj _ Hg).
      rewrite IH. reflexivity.
Qed.

Lemma handleExportPDF_round_trip_witness :
  let picture :=
    fabric.mkObject 50 100 0 400 300 true
      (Some (fabric.mkObjectData None (Some "background.jpg") (Some false)
                                 (Some ""))) in
  let trim :=
    fabric.mkObject 9 9 0 432 648 true
      (Some (fabric.mkObjectData (Some "guideline") (Some "trim") None
                                 None)) in
  let c := mkCapture [picture; fabric.set_visible false trim]
                     [picture; trim] in
  handleExportPDF (Some [picture; trim]) = Some c
  /\ restored c = [picture; trim].
Proof.
  intros picture trim c.
  assert (H : handleExportPDF (Some [picture; trim]) = Some c)
    by reflexivity.
  split; [exact H|].
  exact (proj1 (handleExportPDF_round_trip [picture; trim] c H)).
Defined.
End ExportPanel_facts.

(** * Properties of the image tools *)

Module ImageUploader_facts.
Import ImageUploader Observations.

(** X14: deleting the selected object, when it has a name, removes one
    object from the canvas and drops from the list of images every entry
    with that name, however many; the entries with other names stay, in
    their order. *)
Theorem handleDeleteSelected_drops_every_namesake (st : State)
    (obj : fabric.Object) (n : string) :
  data_name obj = Some n ->
  canvas_calls (handleDeleteSelected true (Some obj) st)
  = [remove_active; renderAll]
  /\ (forall img,
        img ∈ uploadedImages (next (handleDeleteSelected true (Some obj) st))
        <-> img ∈ uploadedImages st /\ fst img <> n)
  /\ (forall m, m <> n ->
        filter (fun img => fst img = m)
               (uploadedImages (next (handleDeleteSelected true (Some obj) st)))
        = filter (fun img => fst img = m) (uploadedImages st)).
Proof.
  intros Hn. unfold handleDeleteSelected. cbn [negb]. rewrite Hn.
  cbn [canvas_calls next uploadedImages].
  split; [reflexivity|]. split.
  - intros img. rewrite list_elem_of_filter. tauto.
  - intros m Hm. induction (uploadedImages st) as [|img l IH]; [reflexivity|].
    destruct (decide (fst img = n)) as [Heq|Hne].
    + rewrite (filter_cons_False (fun img => fst img ≠ n)) by tauto.
      rewrite (filter_cons_False (fun img => fst img = m)) by congruence.
      exact IH.
    + rewrite (filter_cons_True (fun img => fst img ≠ n)) by exact Hne.
      destruct (decide (fst img = m)) as [Hm'|Hm'].
      * rewrite !(filter_cons_True (fun img => fst img = m)) by exact Hm'.
        rewrite IH. reflexivity.
      * rewrite !(filter_cons_False (fun img => fst img = m)) by exact Hm'.
        exact IH.
Qed.

Lemma handleDeleteSelected_drops_every_namesake_witness :
  let st := mkState "" false [("hero", true); ("logo.png", false);
                              ("hero", true)] in
  let obj :=
    fabric.mkObject 0 0 0 200 200 true
      (Some (fabric.mkObjectData None (Some "hero") (Some true)
                                 (Some "hero"))) in
  data_name obj = Some "hero"
  /\ canvas_calls (handleDeleteSelected true (Some obj) st)
     = [remove_active; renderAll]
  /\ uploadedImages (next (handleDeleteSelected true (Some obj) st))
     = [("logo.png", false)].
Proof.
  intros st obj.
  assert (H : data_name obj = Some "hero") by reflexivity.
  split; [exact H|].
  split; [exact (proj1 (handleDeleteSelected_drops_every_namesake
                          st obj "hero" H))|reflexivity].
Defined.

Lemma filter_fresh (n : string) (l : list (string * bool)) :
  n ∉ map fst l -> filter (fun img => fst img ≠ n) l = l.
Proof.
  induction l as [|img l IH]; [reflexivity|].
  cbn [map]. intros H. apply not_elem_of_cons in H as [Hne Hl].
  rewrite filter_cons_True by congruence. rewrite (IH Hl). reflexivity.
Qed.

(** X15: adding a placeholder under a name that is not empty and not yet
    in the list tells the parent of it, and deleting the group just added
    gives the list of images back as it was. *)
Theorem add_then_delete_placeholder (st : State) (width height : float)
    (obj : fabric.Object) (left top : float) (d : fabric.ObjectData) :
  placeholderName st <> "" ->
  placeholderName st ∉ map fst (uploadedImages st) ->
  add_group left top d
    ∈ canvas_calls (handleAddPlaceholder (Some (width, height)) st) ->
  fabric.data obj = Some d ->
  onImageAdded (handleAddPlaceholder (Some (width, height)) st)
  = [(placeholderName st, true)]
  /\ uploadedImages
       (next (handleDeleteSelected true (Some obj)
                (next (handleAddPlaceholder (Some (width, height)) st))))
     = uploadedImages st.
Proof.
  intros Hne Hfresh Hadd Hd.
  unfold handleAddPlaceholder in *.
  destruct (placeholderName st) as [|c s] eqn:Hname; [contradiction|].
  cbn [canvas_calls next onImageAdded] in *.
  apply elem_of_cons in Hadd as [Hadd|Hadd].
  - inversion Hadd; subst. split; [reflexivity|].
    unfold handleDeleteSelected, data_name. cbn [negb]. rewrite Hd.
    cbn [fabric.name next uploadedImages].
    rewrite filter_app, (filter_fresh _ _ Hfresh).
    rewrite filter_cons_False by (cbn; tauto).
    rewrite filter_nil, app_nil_r. reflexivity.
  - repeat (apply elem_of_cons in Hadd as [Hadd|Hadd];
            [discriminate Hadd|]).
    apply elem_of_nil in Hadd. destruct Hadd.
Qed.

Lemma add_then_delete_placeholder_witness :
  let st := mkState "hero" false [("logo.png", false)] in
  let d := fabric.mkObjectData None (Some "hero") (Some true)
                               (Some "hero") in
  let obj := fabric.mkObject 350 224 0 200 200 true (Some d) in
  placeholderName st <> ""
  /\ (placeholderName st ∉ map fst (uploadedImages st))
  /\ uploadedImages (next (handleAddPlaceholder (Some (900, 648)%float) st))
     = [("logo.png", false); ("hero", true)]
  /\ uploadedImages
       (next (handleDeleteSelected true (Some obj)
                (next (handleAddPlaceholder (Some (900, 648)%float) st))))
     = [("logo.png", false)].
Proof.
  intros st d obj.
  assert (H1 : placeholderName st <> "") by discriminate.
  assert (H2 : placeholderName st ∉ map fst (uploadedImages st)).
  { intros Hin. apply elem_of_cons in Hin as [Hin|Hin];
      [discriminate Hin|apply elem_of_nil in Hin; exact Hin]. }
  assert (H3 : add_group (900 / 2 - 100) (648 / 2 - 100) d
               ∈ canvas_calls
                   (handleAddPlaceholder (Some (900, 648)%float) st))
    by (apply elem_of_cons; left; reflexivity).
  split; [exact H1|]. split; [exact H2|]. split; [reflexivity|].
  exact (proj2 (add_then_delete_placeholder st 900 648 obj _ _ d
                  H1 H2 H3 eq_refl)).
Defined.
End ImageUploader_facts.
